(** * SSH RSA public key decoding: a model of [pubkey_2.py]

    The development embeds the two entry points of [pubkey_2.py],
    [extract_rsa_components_manual] and
    [extract_rsa_components_from_string], together with the parts of the
    Python runtime they call ([str.strip], [str.split],
    [base64.b64decode], [struct.unpack], slicing, [bytes.decode],
    [int.from_bytes]), and proves properties of the decoder. *)

From Stdlib Require Import Strings.String Strings.Ascii Strings.Byte.
From Stdlib Require Import ZArith NArith List Bool Lia.
Import ListNotations.
Open Scope Z_scope.

(** ** Python values *)

(** A [bytes] object is an immutable sequence of octets. *)
Definition bytes := list byte.

(** A [str] object is a sequence of Unicode code points. *)
Definition str := list N.

Definition byte_N (b : byte) : N := Byte.to_N b.
Definition byte_val (b : byte) : Z := Z.of_N (Byte.to_N b).

(** The octet [n mod 256]. *)
Definition byte_of_N (n : N) : byte :=
  match Byte.of_N (n mod 256)%N with
  | Some b => b
  | None => x00
  end.

Definition byte_of_Z (z : Z) : byte := byte_of_N (Z.to_N (z mod 256)).

(** Literals: the code points of an ASCII literal, and its octets. *)
Definition str_of_string (s : string) : str :=
  map N_of_ascii (list_ascii_of_string s).

Definition bytes_of_string (s : string) : bytes := list_byte_of_string s.

Fixpoint str_eqb (a b : str) : bool :=
  match a, b with
  | [], [] => true
  | x :: a', y :: b' => N.eqb x y && str_eqb a' b'
  | _, _ => false
  end.

(** [len(l)] *)
Definition len {A : Type} (l : list A) : Z := Z.of_nat (length l).

(** ** Exceptions and results *)

(** The exceptions the two functions can raise.  Those raised by the
    source itself are [ValueError]s told apart by their message; the
    interpolated values of the f-strings are kept as arguments.  The
    others come from the runtime: [binascii.Error] and
    [UnicodeDecodeError] are subclasses of [ValueError]; [struct.error],
    [IndexError] and [OSError] are not. *)
Inductive exn : Type :=
| InvalidFormat
    (* ValueError("Invalid SSH public key format") *)
| ExpectedKeyType (key_type : str)
    (* ValueError(f"Expected ssh-rsa key type, got {key_type}") *)
| NonAsciiArgument
    (* ValueError("string argument should contain only ASCII characters") *)
| BinasciiIncorrectPadding
    (* binascii.Error("Incorrect padding") *)
| BinasciiDataLength (count : Z)
    (* binascii.Error("Invalid base64-encoded string: number of data
       characters (count) cannot be 1 more than a multiple of 4") *)
| CannotReadLength (offset : Z)
    (* ValueError(f"Cannot read length at offset {offset}") *)
| CannotReadBytes (length : Z) (offset : Z)
    (* ValueError(f"Cannot read {length} bytes at offset {offset}") *)
| UnicodeDecodeError
    (* raised by bytes.decode() *)
| InvalidKeyTypeInData (key_type : str)
    (* ValueError(f"Invalid key type in data: {key_type_bytes.decode()}") *)
| StructError
    (* struct.error: unpack requires a buffer of 4 bytes *)
| IndexError
    (* list index out of range *)
| OSError.
    (* open() failed *)

Inductive result (A : Type) : Type :=
| Ok (a : A)
| Raise (e : exn).
Arguments Ok {A} a.
Arguments Raise {A} e.

Definition bind {A B : Type} (r : result A) (k : A -> result B) : result B :=
  match r with
  | Ok a => k a
  | Raise e => Raise e
  end.

Notation "x <- r ;; k" := (bind r (fun x => k))
  (at level 61, r at next level, right associativity).
Notation "' pat <- r ;; k" := (bind r (fun x => match x with pat => k end))
  (at level 61, pat pattern, r at next level, right associativity).

(** Is the exception an instance of [ValueError]? *)
Definition is_ValueError (e : exn) : bool :=
  match e with
  | StructError | IndexError | OSError => false
  | _ => true
  end.

(** Is it the base64 decoder's own error, [binascii.Error]? *)
Definition is_binascii_Error (e : exn) : bool :=
  match e with
  | BinasciiIncorrectPadding | BinasciiDataLength _ => true
  | _ => false
  end.

(** ** Runtime functions *)

Module Py.

(** Slice bounds: a negative bound counts from the end, and both bounds
    are clamped to [0 .. n]. *)
Definition clamp_index (n i : Z) : Z :=
  if i <? 0 then Z.max 0 (i + n) else Z.min i n.

(** [l[lo:hi]] *)
Definition slice {A : Type} (l : list A) (lo hi : Z) : list A :=
  let n := len l in
  let a := clamp_index n lo in
  let b := clamp_index n hi in
  firstn (Z.to_nat (b - a)) (skipn (Z.to_nat a) l).

(** [l[i]] for a list. *)
Definition getitem {A : Type} (l : list A) (i : Z) : result A :=
  let j := if i <? 0 then i + len l else i in
  if j <? 0 then Raise IndexError
  else match nth_error l (Z.to_nat j) with
       | Some x => Ok x
       | None => Raise IndexError
       end.

(** [int.from_bytes(bs, 'big')] *)
Definition int_from_bytes_big (bs : bytes) : Z :=
  fold_left (fun acc b => acc * 256 + byte_val b) bs 0.

(** [struct.unpack('>I', bs)[0]] *)
Definition struct_unpack_I (bs : bytes) : result Z :=
  if len bs =? 4 then Ok (int_from_bytes_big bs) else Raise StructError.

(** The characters [str.strip] and [str.split] treat as whitespace
    ([Py_UNICODE_ISSPACE]). *)
Definition isspace (c : N) : bool :=
  (((9 <=? c) && (c <=? 13)) || ((28 <=? c) && (c <=? 32))
   || (c =? 133) || (c =? 160) || (c =? 5760)
   || ((8192 <=? c) && (c <=? 8202))
   || (c =? 8232) || (c =? 8233) || (c =? 8239) || (c =? 8287)
   || (c =? 12288))%N.

Fixpoint lstrip (s : str) : str :=
  match s with
  | [] => []
  | c :: s' => if isspace c then lstrip s' else s
  end.

Definition rstrip (s : str) : str := rev (lstrip (rev s)).

(** [s.strip()] *)
Definition strip (s : str) : str := rstrip (lstrip s).

(** [s.split()]: the maximal runs of characters that are not whitespace.
    [cur] is the run being read. *)
Fixpoint split_from (cur : str) (s : str) : list str :=
  match s with
  | [] => match cur with [] => [] | _ => [cur] end
  | c :: s' =>
      if isspace c
      then match cur with
           | [] => split_from [] s'
           | _ => cur :: split_from [] s'
           end
      else split_from (cur ++ [c]) s'
  end.

Definition split (s : str) : list str := split_from [] s.

(** [s.encode('ascii')], [None] for [UnicodeEncodeError]. *)
Fixpoint encode_ascii (s : str) : option bytes :=
  match s with
  | [] => Some []
  | c :: s' =>
      if (c <? 128)%N
      then option_map (cons (byte_of_N c)) (encode_ascii s')
      else None
  end.

(** The decoding table of [binascii]: the value of a character of the
    base64 alphabet, [None] for the other octets. *)
Definition table_a2b_base64 (c : N) : option N :=
  if ((65 <=? c) && (c <=? 90))%N then Some (c - 65)%N
  else if ((97 <=? c) && (c <=? 122))%N then Some (c - 71)%N
  else if ((48 <=? c) && (c <=? 57))%N then Some (c + 4)%N
  else if (c =? 43)%N then Some 62%N
  else if (c =? 47)%N then Some 63%N
  else None.

(** The loop of [binascii.a2b_base64] in its default, non strict mode
    (CPython 3.11).  [bin_data] is the output so far, in order. *)
Fixpoint a2b_base64_loop (ascii_data : bytes) (quad_pos : nat) (leftchar : N)
    (pads : nat) (bin_data : bytes) : result bytes :=
  match ascii_data with
  | [] =>
      match quad_pos with
      | O => Ok bin_data
      | 1%nat => Raise (BinasciiDataLength (len bin_data / 3 * 4 + 1))
      | _ => Raise BinasciiIncorrectPadding
      end
  | b :: rest =>
      let this_ch := byte_N b in
      if (this_ch =? 61)%N then
        (* '=' *)
        if (2 <=? quad_pos)%nat then
          if (4 <=? quad_pos + S pads)%nat then Ok bin_data
          else a2b_base64_loop rest quad_pos leftchar (S pads) bin_data
        else a2b_base64_loop rest quad_pos leftchar pads bin_data
      else
        match table_a2b_base64 this_ch with
        | None => a2b_base64_loop rest quad_pos leftchar pads bin_data
        | Some v =>
            match quad_pos with
            | O => a2b_base64_loop rest 1 v 0 bin_data
            | 1%nat =>
                a2b_base64_loop rest 2 (N.land v 15) 0
                  (bin_data ++ [byte_of_N (N.lor (N.shiftl leftchar 2) (N.shiftr v 4))])
            | 2%nat =>
                a2b_base64_loop rest 3 (N.land v 3) 0
                  (bin_data ++ [byte_of_N (N.lor (N.shiftl leftchar 4) (N.shiftr v 2))])
            | _ =>
                a2b_base64_loop rest 0 0 0
                  (bin_data ++ [byte_of_N (N.lor (N.shiftl leftchar 6) v)])
            end
        end
  end.

Definition a2b_base64 (ascii_data : bytes) : result bytes :=
  a2b_base64_loop ascii_data 0 0 0 [].

(** [base64.b64decode(s)] for a [str] argument, [validate=False]. *)
Definition b64decode (s : str) : result bytes :=
  match encode_ascii s with
  | None => Raise NonAsciiArgument
  | Some ascii_data => a2b_base64 ascii_data
  end.

Definition is_continuation (c : N) : bool := ((128 <=? c) && (c <=? 191))%N.

(** [bs.decode()]: strict UTF-8.  Overlong forms, surrogates and values
    above U+10FFFF are rejected. *)
Fixpoint decode_utf8 (bs : bytes) : result str :=
  match bs with
  | [] => Ok []
  | b0 :: r0 =>
      let c0 := byte_N b0 in
      if (c0 <? 128)%N then
        s <- decode_utf8 r0 ;; Ok (c0 :: s)
      else if (c0 <? 194)%N then Raise UnicodeDecodeError
      else if (c0 <? 224)%N then
        match r0 with
        | b1 :: r1 =>
            let c1 := byte_N b1 in
            if is_continuation c1 then
              s <- decode_utf8 r1 ;;
              Ok (((c0 - 192) * 64 + (c1 - 128))%N :: s)
            else Raise UnicodeDecodeError
        | _ => Raise UnicodeDecodeError
        end
      else if (c0 <? 240)%N then
        match r0 with
        | b1 :: b2 :: r2 =>
            let c1 := byte_N b1 in
            let c2 := byte_N b2 in
            let lo := (if c0 =? 224 then 160 else 128)%N in
            let hi := (if c0 =? 237 then 159 else 191)%N in
            if ((lo <=? c1) && (c1 <=? hi))%N && is_continuation c2 then
              s <- decode_utf8 r2 ;;
              Ok (((c0 - 224) * 4096 + (c1 - 128) * 64 + (c2 - 128))%N :: s)
            else Raise UnicodeDecodeError
        | _ => Raise UnicodeDecodeError
        end
      else if (c0 <? 245)%N then
        match r0 with
        | b1 :: b2 :: b3 :: r3 =>
            let c1 := byte_N b1 in
            let c2 := byte_N b2 in
            let c3 := byte_N b3 in
            let lo := (if c0 =? 240 then 144 else 128)%N in
            let hi := (if c0 =? 244 then 143 else 191)%N in
            if ((lo <=? c1) && (c1 <=? hi))%N && is_continuation c2
               && is_continuation c3 then
              s <- decode_utf8 r3 ;;
              Ok (((c0 - 240) * 262144 + (c1 - 128) * 4096
                   + (c2 - 128) * 64 + (c3 - 128))%N :: s)
            else Raise UnicodeDecodeError
        | _ => Raise UnicodeDecodeError
        end
      else Raise UnicodeDecodeError
  end.

(** What [f.read()] returns for a file opened in text mode with the
    default [newline=None]: the line endings ["\r\n"] and ["\r"] are
    translated to ["\n"]. *)
Fixpoint universal_newlines (s : str) : str :=
  match s with
  | [] => []
  | c :: s' =>
      if (c =? 13)%N then
        match s' with
        | d :: s'' =>
            if (d =? 10)%N then 10%N :: universal_newlines s''
            else 10%N :: universal_newlines s'
        | [] => [10%N]
        end
      else c :: universal_newlines s'
  end.

End Py.

(** The files that can be opened for reading, with their text. *)
Definition file_system := str -> option str.

(** [with open(path, 'r') as f: f.read()] *)
Definition read_text (fs : file_system) (path : str) : result str :=
  match fs path with
  | Some text => Ok (Py.universal_newlines text)
  | None => Raise OSError
  end.

Definition ssh_rsa : str := str_of_string "ssh-rsa".

(** ** [extract_rsa_components_from_string] (lines 69-124) *)

Module FromString.

(** The nested function [read_ssh_string] (lines 96-107). *)
Definition read_ssh_string (data : bytes) (offset : Z) : result (bytes * Z) :=
  if offset + 4 >? len data then Raise (CannotReadLength offset)
  else
    length <- Py.struct_unpack_I (Py.slice data offset (offset + 4)) ;;
    let offset := offset + 4 in
    if offset + length >? len data then Raise (CannotReadBytes length offset)
    else Ok (Py.slice data offset (offset + length), offset + length).

(** The blob stage: what the function does with [key_data] once it is
    decoded (lines 93-124). *)
Definition parse_key_data (key_data : bytes) : result (Z * Z) :=
  let offset := 0 in
  '(key_type_bytes, offset) <- read_ssh_string key_data offset ;;
  key_type <- Py.decode_utf8 key_type_bytes ;;
  if negb (str_eqb key_type ssh_rsa) then Raise (InvalidKeyTypeInData key_type)
  else
    '(e_bytes, offset) <- read_ssh_string key_data offset ;;
    '(n_bytes, offset) <- read_ssh_string key_data offset ;;
    let e := Py.int_from_bytes_big e_bytes in
    let n := Py.int_from_bytes_big n_bytes in
    Ok (e, n).

(** The envelope stage (lines 79-91), followed by the blob stage. *)
Definition extract_rsa_components_from_string (public_key_string : str)
  : result (Z * Z) :=
  let content := Py.strip public_key_string in
  let parts := Py.split content in
  if len parts <? 2 then Raise InvalidFormat
  else
    key_type <- Py.getitem parts 0 ;;
    if negb (str_eqb key_type ssh_rsa) then Raise (ExpectedKeyType key_type)
    else
      token <- Py.getitem parts 1 ;;
      key_data <- Py.b64decode token ;;
      parse_key_data key_data.

End FromString.

(** ** [extract_rsa_components_manual] (lines 10-66) *)

Module Manual.

(** The nested function [read_ssh_string] (lines 38-49). *)
Definition read_ssh_string (data : bytes) (offset : Z) : result (bytes * Z) :=
  if offset + 4 >? len data then Raise (CannotReadLength offset)
  else
    length <- Py.struct_unpack_I (Py.slice data offset (offset + 4)) ;;
    let offset := offset + 4 in
    if offset + length >? len data then Raise (CannotReadBytes length offset)
    else Ok (Py.slice data offset (offset + length), offset + length).

Definition extract_rsa_components_manual (fs : file_system)
    (public_key_file : str) : result (Z * Z) :=
  text <- read_text fs public_key_file ;;
  let content := Py.strip text in
  let parts := Py.split content in
  if len parts <? 2 then Raise InvalidFormat
  else
    key_type <- Py.getitem parts 0 ;;
    if negb (str_eqb key_type ssh_rsa) then Raise (ExpectedKeyType key_type)
    else
      token <- Py.getitem parts 1 ;;
      key_data <- Py.b64decode token ;;
      let offset := 0 in
      '(key_type_bytes, offset) <- read_ssh_string key_data offset ;;
      key_type <- Py.decode_utf8 key_type_bytes ;;
      if negb (str_eqb key_type ssh_rsa)
      then Raise (InvalidKeyTypeInData key_type)
      else
        '(e_bytes, offset) <- read_ssh_string key_data offset ;;
        '(n_bytes, offset) <- read_ssh_string key_data offset ;;
        let e := Py.int_from_bytes_big e_bytes in
        let n := Py.int_from_bytes_big n_bytes in
        Ok (e, n).

End Manual.

(** ** The wire format, for the round trip *)

Module Wire.

(** Modelled from the spec: the repository has no encoder.  The [size]
    low octets of [n], most significant first, as [n.to_bytes(size, 'big')]
    gives them when [n] fits. *)
Fixpoint to_bytes_big (size : nat) (n : Z) : bytes :=
  match size with
  | O => []
  | S k => to_bytes_big k (n / 256) ++ [byte_of_Z n]
  end.

(** Modelled from the spec: the number of octets of the minimal encoding,
    [(n.bit_length() + 7) // 8]. *)
Definition byte_length (n : Z) : nat :=
  if n <=? 0 then O else Z.to_nat ((Z.log2 n + 8) / 8).

(** Modelled from the spec: the minimal big-endian encoding of a non-negative integer, without leading zero
    octet; zero is the empty string. *)
Definition minimal_big_endian (n : Z) : bytes := to_bytes_big (byte_length n) n.

(** Modelled from the spec: a length-prefixed field, the 4-byte
    big-endian length followed by the payload.  A payload of 2^32 octets
    or more has no such prefix. *)
Definition field (payload : bytes) : option bytes :=
  if len payload <? 2 ^ 32
  then Some (to_bytes_big 4 (len payload) ++ payload)
  else None.

(** Modelled from the spec: the blob of a key, the three fields
    ["ssh-rsa"], [e], [n] in this order. *)
Definition encode_blob (e n : Z) : option bytes :=
  match field (bytes_of_string "ssh-rsa"),
        field (minimal_big_endian e),
        field (minimal_big_endian n) with
  | Some f0, Some f1, Some f2 => Some (f0 ++ f1 ++ f2)
  | _, _, _ => None
  end.

End Wire.

(** The blob of the concrete scenario and the line that carries it. *)
Definition scenario_blob : bytes :=
  [x00; x00; x00; x07; x73; x73; x68; x2d; x72; x73; x61;
   x00; x00; x00; x03; x01; x00; x01;
   x00; x00; x00; x03; x01; x02; x03].

Definition scenario_line : str :=
  str_of_string "ssh-rsa AAAAB3NzaC1yc2EAAAADAQABAAAAAwECAw==".

(** A blob whose exponent field is empty. *)
Definition empty_exponent_blob : bytes :=
  [x00; x00; x00; x07; x73; x73; x68; x2d; x72; x73; x61;
   x00; x00; x00; x00;
   x00; x00; x00; x02; x01; x05].

(** ** Vocabulary of the specification *)

(** The octet of [buffer] at position [i]. *)
Definition octet_at (buffer : bytes) (i : Z) : Z :=
  byte_val (nth (Z.to_nat i) buffer x00).

(** The 4-byte big-endian unsigned integer of [buffer] at [offset]. *)
Definition uint32_be_at (buffer : bytes) (offset : Z) : Z :=
  octet_at buffer offset * 2 ^ 24 + octet_at buffer (offset + 1) * 2 ^ 16
  + octet_at buffer (offset + 2) * 2 ^ 8 + octet_at buffer (offset + 3).

(** The [count] octets of [buffer] that start at position [start]. *)
Definition octets_from (buffer : bytes) (start count : Z) : bytes :=
  firstn (Z.to_nat count) (skipn (Z.to_nat start) buffer).

(** [splits_as s toks]: [toks] are the maximal runs of characters of [s]
    that are not whitespace, from left to right.  Each token is preceded
    by a run of whitespace [ws], possibly empty, and followed by the end
    of the text or by whitespace. *)
Inductive splits_as : str -> list str -> Prop :=
| splits_blank (ws : str) :
    forallb Py.isspace ws = true ->
    splits_as ws []
| splits_token (ws tok rest : str) (toks : list str) :
    forallb Py.isspace ws = true ->
    tok <> [] ->
    forallb (fun c => negb (Py.isspace c)) tok = true ->
    match rest with [] => True | c :: _ => Py.isspace c = true end ->
    splits_as rest toks ->
    splits_as (ws ++ tok ++ rest) (tok :: toks).

(** What [split_from] does with the run [cur] at a whitespace character. *)
Definition flush (cur : str) (toks : list str) : list str :=
  match cur with
  | [] => toks
  | _ => cur :: toks
  end.

(** The characters of the base64 alphabet, and the padding character. *)
Definition in_alphabet (c : N) : bool :=
  match Py.table_a2b_base64 c with
  | Some _ => true
  | None => false
  end.

Definition is_pad (c : N) : bool := (c =? 61)%N.

(** Well-formed base64 text: groups of four alphabet characters, the
    last group possibly ending in one or two padding characters. *)
Fixpoint well_formed_base64 (s : str) : bool :=
  match s with
  | [] => true
  | a :: b :: c :: d :: rest =>
      in_alphabet a && in_alphabet b
      && match rest with
         | [] => (in_alphabet c && (in_alphabet d || is_pad d))
                 || (is_pad c && is_pad d)
         | _ => in_alphabet c && in_alphabet d && well_formed_base64 rest
         end
  | _ => false
  end.

(** The number of alphabet characters of a token. *)
Definition data_characters (token : str) : nat :=
  length (filter in_alphabet token).

(** The errors [base64.b64decode] raises. *)
Definition is_invalid_base64 (e : exn) : bool :=
  match e with
  | NonAsciiArgument => true
  | _ => is_binascii_Error e
  end.

(** The reading of the base64 clause under which every token that is not
    well-formed base64 is rejected with the decoder's error. *)
Definition rejects_every_malformed_token : Prop :=
  forall line token : str,
    Py.getitem (Py.split (Py.strip line)) 1 = Ok token ->
    well_formed_base64 token = false ->
    exists e,
      FromString.extract_rsa_components_from_string line = Raise e
      /\ is_invalid_base64 e = true.

(** The same count on the octets of an encoded token, and the tokens
    without padding character. *)
Definition data_octets (bs : bytes) : nat :=
  length (filter (fun b => in_alphabet (byte_N b)) bs).

Definition pad_free (bs : bytes) : bool :=
  forallb (fun b => negb (is_pad (byte_N b))) bs.

(** A file system with one file, the line of the scenario ended by
    a carriage return and a line feed. *)
Definition one_file : file_system :=
  fun path =>
    if str_eqb path (str_of_string "id_rsa.pub")
    then Some (scenario_line ++ [13; 10]%N)
    else None.

(** ** [format_key_info] (lines 127-136) *)

Module PyInt.

(** [n.bit_length()]: the number of bits of the absolute value. *)
Definition bit_length (n : Z) : Z :=
  if n =? 0 then 0 else Z.log2 (Z.abs n) + 1.

(** The character of a hexadecimal digit, lower case. *)
Definition hex_digit (d : Z) : N :=
  if d <? 10 then Z.to_N (48 + d) else Z.to_N (87 + d).

(** The [count] low hexadecimal digits of [n], most significant first. *)
Fixpoint hex_digits (count : nat) (n : Z) : str :=
  match count with
  | O => []
  | S k => hex_digits k (n / 16) ++ [hex_digit (n mod 16)]
  end.

(** [hex(x)]: the sign, ["0x"], and the digits without leading zero. *)
Definition hex (x : Z) : str :=
  let m := Z.abs x in
  (if x <? 0 then [45%N] else [])
  ++ [48%N; 120%N]
  ++ (if m =? 0 then [48%N]
      else hex_digits (Z.to_nat ((bit_length m + 3) / 4)) m).

End PyInt.

(** The dictionary [format_key_info] returns: its five keys. *)
Record key_info : Type := {
  exponent : Z;
  modulus : Z;
  bit_length : Z;
  hex_exponent : str;
  hex_modulus : str
}.

Definition format_key_info (e n : Z) : key_info :=
  let bit_length := PyInt.bit_length n in
  {| exponent := e;
     modulus := n;
     bit_length := bit_length;
     hex_exponent := PyInt.hex e;
     hex_modulus := PyInt.hex n |}.

(** The value of a hexadecimal digit character, lower case. *)
Definition hex_digit_value (c : N) : option Z :=
  if ((48 <=? c) && (c <=? 57))%N then Some (Z.of_N c - 48)
  else if ((97 <=? c) && (c <=? 102))%N then Some (Z.of_N c - 87)
  else None.

(** The number a string of hexadecimal digits writes, from [acc] on. *)
Fixpoint hex_value_from (acc : Z) (digits : str) : option Z :=
  match digits with
  | [] => Some acc
  | c :: digits' =>
      match hex_digit_value c with
      | Some d => hex_value_from (acc * 16 + d) digits'
      | None => None
      end
  end.

Definition hex_value (digits : str) : option Z := hex_value_from 0 digits.

(** The two errors of [read_ssh_string]: the blob is too short. *)
Definition is_truncation (e : exn) : bool :=
  match e with
  | CannotReadLength _ | CannotReadBytes _ _ => true
  | _ => false
  end.

(** The 11 octets every accepted blob starts with. *)
Definition tag_field : bytes :=
  Wire.to_bytes_big 4 7 ++ bytes_of_string "ssh-rsa".

(** The characters [a2b_base64] does not skip. *)
Definition significant (c : N) : bool := in_alphabet c || is_pad c.

Definition is_ascii (c : N) : bool := (c <? 128)%N.

(** A blob whose type tag is ["dsa"]. *)
Definition dsa_blob : bytes :=
  [x00; x00; x00; x03; x64; x73; x61; x00; x00].

(** The number the alphabet characters of a text write in base 64, the
    other characters left out. *)
Fixpoint sextets_value_from (acc : Z) (text : str) : Z :=
  match text with
  | [] => acc
  | c :: text' =>
      match Py.table_a2b_base64 c with
      | Some v => sextets_value_from (acc * 64 + Z.of_N v) text'
      | None => sextets_value_from acc text'
      end
  end.

Definition sextets_value (text : str) : Z := sextets_value_from 0 text.

(** The bits [a2b_base64] holds in [leftchar] at each position of a
    group of four characters. *)
Definition pending_bits (quad_pos : nat) : Z :=
  match quad_pos with
  | O => 0
  | 1%nat => 6
  | 2%nat => 4
  | _ => 2
  end.

(** [P] on every number below [k]. *)
Definition all_below (k : nat) (P : N -> bool) : bool :=
  forallb P (map N.of_nat (seq 0 k)).

(** The three octets [a2b_base64] builds, as arithmetic on the bits held
    and the new character. *)
Definition octet_steps_ok (l v : N) : bool :=
  ((byte_N (byte_of_N (N.lor (N.shiftl l 2) (N.shiftr v 4))) =? l * 4 + v / 16)
   && (N.land v 15 =? v mod 16)
   && (negb (l <? 16)
       || (byte_N (byte_of_N (N.lor (N.shiftl l 4) (N.shiftr v 2)))
           =? l * 16 + v / 4))
   && (N.land v 3 =? v mod 4)
   && (negb (l <? 4)
       || (byte_N (byte_of_N (N.lor (N.shiftl l 6) v)) =? l * 64 + v)))%N.

(** The state of [a2b_base64] after [count] alphabet characters that
    write [value]: the octets written and the bits held make up
    [value]. *)
Definition a2b_state_ok (quad_pos : nat) (leftchar : N) (bin_data : bytes)
    (value count : Z) : Prop :=
  0 <= count
  /\ Z.of_nat quad_pos = count mod 4
  /\ Py.int_from_bytes_big bin_data * 2 ^ pending_bits quad_pos
     + Z.of_N leftchar = value
  /\ Z.of_N leftchar < 2 ^ pending_bits quad_pos
  /\ 8 * len bin_data + pending_bits quad_pos = 6 * count.

(** * Properties *)

(** ** Octets and big-endian integers *)

Lemma byte_val_range (b : byte) : 0 <= byte_val b < 256.
Proof.
  unfold byte_val. pose proof (Byte.to_N_bounded b). lia.
Qed.

Lemma byte_N_of_N (n : N) : byte_N (byte_of_N n) = (n mod 256)%N.
Proof.
  unfold byte_N, byte_of_N.
  destruct (Byte.of_N (n mod 256)) as [b|] eqn:E.
  - now apply Byte.to_of_N.
  - apply Byte.of_N_None_iff in E.
    pose proof (N.mod_upper_bound n 256). lia.
Qed.

Lemma byte_val_of_Z (z : Z) : byte_val (byte_of_Z z) = z mod 256.
Proof.
  unfold byte_val, byte_of_Z. fold (byte_N (byte_of_N (Z.to_N (z mod 256)))).
  rewrite byte_N_of_N.
  pose proof (Z.mod_pos_bound z 256 ltac:(lia)).
  rewrite N.mod_small by lia. lia.
Qed.

Lemma len_app {A : Type} (a b : list A) : len (a ++ b) = len a + len b.
Proof. unfold len. rewrite length_app. lia. Qed.

Lemma len_nonneg {A : Type} (l : list A) : 0 <= len l.
Proof. unfold len. lia. Qed.

Lemma fold_big_endian (bs : bytes) (acc : Z) :
  fold_left (fun a b => a * 256 + byte_val b) bs acc
  = acc * 256 ^ len bs + Py.int_from_bytes_big bs.
Proof.
  unfold Py.int_from_bytes_big. revert acc.
  induction bs as [|b bs IH]; intros acc; cbn [fold_left].
  - change (len (@nil byte)) with 0. lia.
  - rewrite IH. rewrite (IH (0 * 256 + byte_val b)).
    replace (len (b :: bs)) with (len bs + 1)
      by (unfold len; cbn [length]; lia).
    rewrite Z.pow_add_r by (pose proof (len_nonneg bs); lia). lia.
Qed.

Lemma int_from_bytes_big_cons (b : byte) (bs : bytes) :
  Py.int_from_bytes_big (b :: bs)
  = byte_val b * 256 ^ len bs + Py.int_from_bytes_big bs.
Proof.
  unfold Py.int_from_bytes_big at 1. cbn [fold_left].
  rewrite fold_big_endian. lia.
Qed.

Lemma int_from_bytes_big_app (a b : bytes) :
  Py.int_from_bytes_big (a ++ b)
  = Py.int_from_bytes_big a * 256 ^ len b + Py.int_from_bytes_big b.
Proof.
  unfold Py.int_from_bytes_big at 1. rewrite fold_left_app.
  fold (Py.int_from_bytes_big a). apply fold_big_endian.
Qed.

Lemma int_from_bytes_big_range (bs : bytes) :
  0 <= Py.int_from_bytes_big bs < 256 ^ len bs.
Proof.
  induction bs as [|b bs IH].
  - cbv. split; congruence.
  - rewrite int_from_bytes_big_cons.
    replace (len (b :: bs)) with (len bs + 1)
      by (unfold len; cbn [length]; lia).
    rewrite Z.pow_add_r by (pose proof (len_nonneg bs); lia).
    pose proof (byte_val_range b).
    assert (0 < 256 ^ len bs) by (apply Z.pow_pos_nonneg; [lia | apply len_nonneg]).
    nia.
Qed.

Lemma length_to_bytes_big (size : nat) (n : Z) :
  length (Wire.to_bytes_big size n) = size.
Proof.
  revert n. induction size as [|k IH]; intros n; simpl; auto.
  rewrite length_app, IH. simpl. lia.
Qed.

Lemma from_to_bytes_big (size : nat) (n : Z) :
  0 <= n < 256 ^ Z.of_nat size ->
  Py.int_from_bytes_big (Wire.to_bytes_big size n) = n.
Proof.
  revert n. induction size as [|k IH]; intros n Hn.
  - simpl in *. cbv [Py.int_from_bytes_big fold_left]. lia.
  - simpl Wire.to_bytes_big. rewrite int_from_bytes_big_app.
    rewrite Nat2Z.inj_succ, Z.pow_succ_r in Hn by lia.
    rewrite IH.
    + unfold Py.int_from_bytes_big at 1. simpl fold_left.
      rewrite byte_val_of_Z. change (len [byte_of_Z n]) with 1.
      rewrite Z.pow_1_r. pose proof (Z.div_mod n 256 ltac:(lia)). lia.
    + split.
      * apply Z.div_pos; lia.
      * apply Z.div_lt_upper_bound; lia.
Qed.

Lemma byte_length_bound (n : Z) :
  0 <= n -> n < 256 ^ Z.of_nat (Wire.byte_length n).
Proof.
  intros Hn. unfold Wire.byte_length.
  destruct (n <=? 0) eqn:E.
  - apply Z.leb_le in E. simpl. lia.
  - apply Z.leb_gt in E.
    pose proof (Z.log2_nonneg n) as Hl.
    assert (Hq : 0 <= (Z.log2 n + 8) / 8) by (apply Z.div_pos; lia).
    rewrite Z2Nat.id by exact Hq.
    change 256 with (2 ^ 8). rewrite <- Z.pow_mul_r by lia.
    apply Z.log2_lt_pow2; [lia|].
    pose proof (Z.div_mod (Z.log2 n + 8) 8 ltac:(lia)).
    pose proof (Z.mod_pos_bound (Z.log2 n + 8) 8 ltac:(lia)). lia.
Qed.

Lemma minimal_big_endian_value (n : Z) :
  0 <= n -> Py.int_from_bytes_big (Wire.minimal_big_endian n) = n.
Proof.
  intros Hn. unfold Wire.minimal_big_endian. apply from_to_bytes_big.
  split; [exact Hn | now apply byte_length_bound].
Qed.

(** ** Slices *)

Lemma slice_inside {A : Type} (l : list A) (lo hi : Z) :
  0 <= lo -> lo <= hi -> hi <= len l ->
  Py.slice l lo hi = firstn (Z.to_nat (hi - lo)) (skipn (Z.to_nat lo) l).
Proof.
  intros H0 H1 H2. unfold Py.slice, Py.clamp_index.
  destruct (lo <? 0) eqn:E1; [apply Z.ltb_lt in E1; lia|].
  destruct (hi <? 0) eqn:E2; [apply Z.ltb_lt in E2; lia|].
  now rewrite !Z.min_l by lia.
Qed.

Lemma length_slice_inside {A : Type} (l : list A) (lo hi : Z) :
  0 <= lo -> lo <= hi -> hi <= len l ->
  len (Py.slice l lo hi) = hi - lo.
Proof.
  intros H0 H1 H2. rewrite slice_inside by assumption.
  unfold len in *. rewrite length_firstn, length_skipn. lia.
Qed.

Lemma slice_app_inside {A : Type} (l extra : list A) (lo hi : Z) :
  0 <= lo -> lo <= hi -> hi <= len l ->
  Py.slice (l ++ extra) lo hi = Py.slice l lo hi.
Proof.
  intros H0 H1 H2.
  rewrite !slice_inside by (rewrite ?len_app; pose proof (len_nonneg extra); lia).
  unfold len in H2.
  rewrite skipn_app, firstn_app, length_skipn.
  replace (Z.to_nat (hi - lo) - (length l - Z.to_nat lo))%nat with O by lia.
  rewrite firstn_O, app_nil_r. reflexivity.
Qed.

Lemma slice_middle {A : Type} (pre mid post : list A) :
  Py.slice (pre ++ mid ++ post) (len pre) (len pre + len mid) = mid.
Proof.
  rewrite slice_inside
    by (rewrite ?len_app; pose proof (len_nonneg pre); pose proof (len_nonneg mid);
        pose proof (len_nonneg post); lia).
  unfold len. rewrite Nat2Z.id.
  rewrite skipn_app, skipn_all, Nat.sub_diag. cbn [skipn app].
  replace (Z.to_nat (Z.of_nat (length pre) + Z.of_nat (length mid)
                     - Z.of_nat (length pre))) with (length mid) by lia.
  rewrite firstn_app, firstn_all, Nat.sub_diag. cbn [firstn].
  apply app_nil_r.
Qed.

Lemma four_octets (buffer : bytes) (offset : Z) :
  0 <= offset -> offset + 4 <= len buffer ->
  len (Py.slice buffer offset (offset + 4)) = 4
  /\ Py.int_from_bytes_big (Py.slice buffer offset (offset + 4))
     = uint32_be_at buffer offset.
Proof.
  intros H0 H1. split; [rewrite length_slice_inside; lia|].
  rewrite slice_inside by lia.
  unfold uint32_be_at, octet_at.
  replace (Z.to_nat (offset + 1)) with (Z.to_nat offset + 1)%nat by lia.
  replace (Z.to_nat (offset + 2)) with (Z.to_nat offset + 2)%nat by lia.
  replace (Z.to_nat (offset + 3)) with (Z.to_nat offset + 3)%nat by lia.
  replace (Z.to_nat offset) with (Z.to_nat offset + 0)%nat at 2 by lia.
  rewrite <- !(nth_skipn (Z.to_nat offset) buffer).
  assert (Hl : (4 <= length (skipn (Z.to_nat offset) buffer))%nat)
    by (rewrite length_skipn; unfold len in H1; lia).
  replace (Z.to_nat (offset + 4 - offset)) with 4%nat by lia.
  destruct (skipn (Z.to_nat offset) buffer) as [|b0 [|b1 [|b2 [|b3 r]]]];
    cbn [length] in Hl; try lia.
  cbn [firstn nth]. unfold Py.int_from_bytes_big. cbn [fold_left]. lia.
Qed.

(** ** The field reader *)

Lemma manual_reader_same (data : bytes) (offset : Z) :
  Manual.read_ssh_string data offset = FromString.read_ssh_string data offset.
Proof. reflexivity. Qed.

Lemma read_prefix_short (buffer : bytes) (offset : Z) :
  offset + 4 > len buffer ->
  FromString.read_ssh_string buffer offset = Raise (CannotReadLength offset).
Proof.
  intros H. unfold FromString.read_ssh_string.
  destruct (offset + 4 >? len buffer) eqn:E; [reflexivity|].
  rewrite Z.gtb_ltb in E. apply Z.ltb_ge in E. lia.
Qed.

Lemma read_unfold (buffer : bytes) (offset : Z) :
  0 <= offset -> offset + 4 <= len buffer ->
  FromString.read_ssh_string buffer offset =
    let L := uint32_be_at buffer offset in
    if offset + 4 + L >? len buffer
    then Raise (CannotReadBytes L (offset + 4))
    else Ok (Py.slice buffer (offset + 4) (offset + 4 + L), offset + 4 + L).
Proof.
  intros H0 H1. unfold FromString.read_ssh_string.
  destruct (offset + 4 >? len buffer) eqn:E.
  { rewrite Z.gtb_ltb in E. apply Z.ltb_lt in E. lia. }
  destruct (four_octets buffer offset H0 H1) as [H4 HL].
  unfold Py.struct_unpack_I. rewrite H4. cbn [Z.eqb Pos.eqb bind].
  rewrite HL. reflexivity.
Qed.

Lemma uint32_be_at_nonneg (buffer : bytes) (offset : Z) :
  0 <= uint32_be_at buffer offset < 2 ^ 32.
Proof.
  unfold uint32_be_at, octet_at.
  repeat match goal with
         | |- context [byte_val ?b] =>
             let H := fresh in
             pose proof (byte_val_range b) as H;
             generalize dependent (byte_val b); intros
         end.
  lia.
Qed.

(** C2.  For every buffer and every offset into it (offsets are
    positions, so not negative): [read_ssh_string] raises the
    cannot-read-length error carrying [offset] when
    [offset + 4 > len(buffer)]; otherwise, with [L] the 4-byte big-endian
    unsigned integer at [offset], it raises the cannot-read-bytes error
    carrying [L] and [offset + 4] when [offset + 4 + L > len(buffer)];
    otherwise it returns the [L] octets of the buffer from [offset + 4] on,
    with the new offset [offset + 4 + L].  The function is pure: the
    buffer, an immutable [bytes] object, is only read. *)
Theorem read_ssh_string_contract (buffer : bytes) (offset : Z) :
  0 <= offset ->
  let L := uint32_be_at buffer offset in
  (offset + 4 > len buffer ->
     FromString.read_ssh_string buffer offset
     = Raise (CannotReadLength offset))
  /\ (offset + 4 <= len buffer -> offset + 4 + L > len buffer ->
        FromString.read_ssh_string buffer offset
        = Raise (CannotReadBytes L (offset + 4)))
  /\ (offset + 4 <= len buffer -> offset + 4 + L <= len buffer ->
        FromString.read_ssh_string buffer offset
        = Ok (octets_from buffer (offset + 4) L, offset + 4 + L)
        /\ Py.slice buffer (offset + 4) (offset + 4 + L)
           = octets_from buffer (offset + 4) L
        /\ len (octets_from buffer (offset + 4) L) = L).
Proof.
  intros H0 L. split; [apply read_prefix_short|].
  pose proof (uint32_be_at_nonneg buffer offset) as HL. fold L in HL.
  split; intros H1 H2; rewrite read_unfold by assumption; fold L; cbv zeta.
  - destruct (offset + 4 + L >? len buffer) eqn:E; [reflexivity|].
    rewrite Z.gtb_ltb in E. apply Z.ltb_ge in E. lia.
  - destruct (offset + 4 + L >? len buffer) eqn:E.
    { rewrite Z.gtb_ltb in E. apply Z.ltb_lt in E. lia. }
    assert (Hs : Py.slice buffer (offset + 4) (offset + 4 + L)
                 = octets_from buffer (offset + 4) L).
    { rewrite slice_inside by lia. unfold octets_from.
      now replace (offset + 4 + L - (offset + 4)) with L by lia. }
    rewrite Hs. repeat split.
    rewrite <- Hs. rewrite length_slice_inside by lia. lia.
Qed.

Lemma read_ssh_string_contract_witness :
  FromString.read_ssh_string scenario_blob 11
  = Ok (octets_from scenario_blob 15 3, 18).
Proof.
  pose proof (read_ssh_string_contract scenario_blob 11 ltac:(lia)) as H.
  cbv zeta in H. destruct H as (_ & _ & H).
  change (uint32_be_at scenario_blob 11) with 3 in H.
  change (len scenario_blob) with 25 in H.
  exact (proj1 (H ltac:(lia) ltac:(lia))).
Defined.

Example read_at_negative_offset :
  FromString.read_ssh_string [x00; x00; x00; x00] (-1) = Raise StructError.
Proof. reflexivity. Qed.

Lemma read_ok_bounds (buffer : bytes) (offset : Z) (payload : bytes)
    (new_offset : Z) :
  FromString.read_ssh_string buffer offset = Ok (payload, new_offset) ->
  offset + 4 <= new_offset <= len buffer.
Proof.
  unfold FromString.read_ssh_string, Py.struct_unpack_I.
  destruct (offset + 4 >? len buffer) eqn:E1; [discriminate|].
  destruct (len (Py.slice buffer offset (offset + 4)) =? 4); [|discriminate].
  cbn [bind].
  pose proof (int_from_bytes_big_range (Py.slice buffer offset (offset + 4))) as HL.
  destruct (offset + 4 + _ >? len buffer) eqn:E2; [discriminate|].
  intros H. injection H as _ <-.
  rewrite Z.gtb_ltb in E2. apply Z.ltb_ge in E2. lia.
Qed.

Lemma read_ok_payload (buffer : bytes) (offset : Z) (payload : bytes)
    (new_offset : Z) :
  0 <= offset ->
  FromString.read_ssh_string buffer offset = Ok (payload, new_offset) ->
  payload = octets_from buffer (offset + 4) (new_offset - (offset + 4))
  /\ len payload = new_offset - (offset + 4)
  /\ new_offset = offset + 4 + uint32_be_at buffer offset.
Proof.
  intros H0 H.
  destruct (Z_gt_le_dec (offset + 4) (len buffer)) as [Hs|Hs].
  { rewrite read_prefix_short in H by assumption. discriminate. }
  pose proof (uint32_be_at_nonneg buffer offset) as HL.
  rewrite read_unfold in H by assumption. cbv zeta in H.
  destruct (offset + 4 + uint32_be_at buffer offset >? len buffer) eqn:E;
    [discriminate|].
  rewrite Z.gtb_ltb in E. apply Z.ltb_ge in E.
  injection H as <- <-.
  rewrite length_slice_inside by lia.
  rewrite slice_inside by lia. unfold octets_from.
  repeat split; lia.
Qed.

Lemma str_eqb_eq (a b : str) : str_eqb a b = true <-> a = b.
Proof.
  revert b. induction a as [|x a IH]; intros [|y b]; cbn [str_eqb];
    try (split; [discriminate | congruence]); [tauto|].
  rewrite andb_true_iff, N.eqb_eq, IH. split.
  - intros [-> ->]. reflexivity.
  - intros H. injection H as -> ->. auto.
Qed.

(** The three reads behind a successful blob stage. *)
Lemma parse_key_data_ok_inv (key_data : bytes) (e n : Z) :
  FromString.parse_key_data key_data = Ok (e, n) ->
  exists p1 o1 p2 o2 p3 o3,
    FromString.read_ssh_string key_data 0 = Ok (p1, o1)
    /\ Py.decode_utf8 p1 = Ok ssh_rsa
    /\ FromString.read_ssh_string key_data o1 = Ok (p2, o2)
    /\ FromString.read_ssh_string key_data o2 = Ok (p3, o3)
    /\ e = Py.int_from_bytes_big p2
    /\ n = Py.int_from_bytes_big p3.
Proof.
  unfold FromString.parse_key_data. cbv zeta.
  destruct (FromString.read_ssh_string key_data 0) as [[p1 o1]|] eqn:R1;
    [|discriminate].
  cbn [bind].
  destruct (Py.decode_utf8 p1) as [key_type|] eqn:D; [|discriminate].
  cbn [bind].
  destruct (str_eqb key_type ssh_rsa) eqn:Q; [|discriminate].
  cbn [negb].
  destruct (FromString.read_ssh_string key_data o1) as [[p2 o2]|] eqn:R2;
    [|discriminate].
  cbn [bind].
  destruct (FromString.read_ssh_string key_data o2) as [[p3 o3]|] eqn:R3;
    [|discriminate].
  cbn [bind]. intros H. injection H as <- <-.
  exists p1, o1, p2, o2, p3, o3. repeat split; auto.
  apply str_eqb_eq in Q. now subst.
Qed.

(** C10.  A successful [read_ssh_string] returns a new offset with
    [offset + 4 <= new_offset <= len(buffer)], and from an offset that is
    not negative its payload is the octets of the buffer between
    [offset + 4] and the new offset.  Hence a successful blob stage is
    three reads whose offsets strictly increase from 0 and stay within
    the buffer. *)
Theorem read_ssh_string_offsets :
  (forall buffer offset payload new_offset,
      FromString.read_ssh_string buffer offset = Ok (payload, new_offset) ->
      offset + 4 <= new_offset <= len buffer
      /\ (0 <= offset ->
          payload = octets_from buffer (offset + 4) (new_offset - (offset + 4))
          /\ len payload = new_offset - (offset + 4)))
  /\ (forall key_data e n,
         FromString.parse_key_data key_data = Ok (e, n) ->
         exists p1 o1 p2 o2 p3 o3,
           FromString.read_ssh_string key_data 0 = Ok (p1, o1)
           /\ FromString.read_ssh_string key_data o1 = Ok (p2, o2)
           /\ FromString.read_ssh_string key_data o2 = Ok (p3, o3)
           /\ 0 + 4 <= o1 /\ o1 + 4 <= o2 /\ o2 + 4 <= o3 <= len key_data).
Proof.
  split.
  - intros buffer offset payload new_offset H. split.
    + eapply read_ok_bounds; eauto.
    + intros H0. destruct (read_ok_payload _ _ _ _ H0 H) as (? & ? & _). auto.
  - intros key_data e n H.
    destruct (parse_key_data_ok_inv _ _ _ H)
      as (p1 & o1 & p2 & o2 & p3 & o3 & R1 & _ & R2 & R3 & _).
    exists p1, o1, p2, o2, p3, o3.
    pose proof (read_ok_bounds _ _ _ _ R1).
    pose proof (read_ok_bounds _ _ _ _ R2).
    pose proof (read_ok_bounds _ _ _ _ R3).
    repeat split; auto; lia.
Qed.

Lemma read_ssh_string_offsets_witness :
  11 + 4 <= 18 <= len scenario_blob
  /\ exists p1 o1 p2 o2 p3 o3,
       FromString.read_ssh_string scenario_blob 0 = Ok (p1, o1)
       /\ FromString.read_ssh_string scenario_blob o1 = Ok (p2, o2)
       /\ FromString.read_ssh_string scenario_blob o2 = Ok (p3, o3)
       /\ 0 + 4 <= o1 /\ o1 + 4 <= o2 /\ o2 + 4 <= o3 <= len scenario_blob.
Proof.
  split.
  - exact (proj1 (proj1 read_ssh_string_offsets scenario_blob 11
                    [x01; x00; x01] 18 eq_refl)).
  - exact (proj2 read_ssh_string_offsets scenario_blob 65537 66051 eq_refl).
Defined.

(** ** The blob stage *)

(** C3.  The blob of the concrete scenario decodes to [e = 65537] and
    [n = 66051], both at the blob stage and through
    [extract_rsa_components_from_string] on a line whose second token is
    the base64 form of the blob. *)
Theorem scenario_decodes :
  FromString.parse_key_data scenario_blob = Ok (65537, 66051)
  /\ Py.b64decode (str_of_string "AAAAB3NzaC1yc2EAAAADAQABAAAAAwECAw==")
     = Ok scenario_blob
  /\ FromString.extract_rsa_components_from_string scenario_line
     = Ok (65537, 66051).
Proof. repeat split; vm_compute; reflexivity. Qed.

Lemma read_app (data extra payload : bytes) (offset new_offset : Z) :
  0 <= offset ->
  FromString.read_ssh_string data offset = Ok (payload, new_offset) ->
  FromString.read_ssh_string (data ++ extra) offset = Ok (payload, new_offset).
Proof.
  intros H0 H.
  pose proof (read_ok_bounds _ _ _ _ H) as Hb.
  destruct (read_ok_payload _ _ _ _ H0 H) as (_ & _ & Ho).
  pose proof (uint32_be_at_nonneg data offset) as HL.
  pose proof (len_nonneg extra) as He.
  rewrite read_unfold in H by lia.
  rewrite read_unfold by (rewrite ?len_app; lia).
  assert (HU : uint32_be_at (data ++ extra) offset = uint32_be_at data offset).
  { destruct (four_octets data offset) as [_ <-]; [lia..|].
    destruct (four_octets (data ++ extra) offset) as [_ <-];
      [rewrite ?len_app; lia..|].
    now rewrite slice_app_inside by lia. }
  cbv zeta in *. rewrite HU.
  destruct (offset + 4 + uint32_be_at data offset >? len data) eqn:E;
    [discriminate|].
  destruct (offset + 4 + uint32_be_at data offset >? len (data ++ extra)) eqn:E'.
  { rewrite Z.gtb_ltb in E'. apply Z.ltb_lt in E'. rewrite len_app in E'. lia. }
  now rewrite slice_app_inside by lia.
Qed.

Lemma str_eqb_refl (a : str) : str_eqb a a = true.
Proof. now apply str_eqb_eq. Qed.

(** C4.  When the blob stage succeeds on a blob, it succeeds on the blob
    followed by any further octets, with the same pair [(e, n)]. *)
Theorem trailing_bytes_ignored (blob extra : bytes) (e n : Z) :
  FromString.parse_key_data blob = Ok (e, n) ->
  FromString.parse_key_data (blob ++ extra) = Ok (e, n).
Proof.
  intros H.
  destruct (parse_key_data_ok_inv _ _ _ H)
    as (p1 & o1 & p2 & o2 & p3 & o3 & R1 & D & R2 & R3 & -> & ->).
  pose proof (read_ok_bounds _ _ _ _ R1).
  pose proof (read_ok_bounds _ _ _ _ R2).
  unfold FromString.parse_key_data. cbv zeta.
  rewrite (read_app blob extra p1 0 o1 ltac:(lia) R1). cbn [bind].
  rewrite D. cbn [bind]. rewrite str_eqb_refl. cbn [negb].
  rewrite (read_app blob extra p2 o1 o2 ltac:(lia) R2). cbn [bind].
  rewrite (read_app blob extra p3 o2 o3 ltac:(lia) R3). reflexivity.
Qed.

Lemma trailing_bytes_ignored_witness :
  FromString.parse_key_data (scenario_blob ++ [xde; xad; xbe; xef])
  = Ok (65537, 66051).
Proof.
  apply (trailing_bytes_ignored scenario_blob [xde; xad; xbe; xef]).
  reflexivity.
Defined.

(** C8.  [int.from_bytes] is defined on every payload and gives a value
    from 0 below [256 ^ len], which is 0 for the empty payload.  So on a
    blob whose exponent field declares length 0 the blob stage goes on to
    the modulus field and, when that field is readable, returns [e = 0]. *)
Theorem empty_exponent_is_zero (blob : bytes) (o1 : Z) :
  FromString.read_ssh_string blob 0 = Ok (bytes_of_string "ssh-rsa", o1) ->
  o1 + 4 <= len blob ->
  uint32_be_at blob o1 = 0 ->
  FromString.read_ssh_string blob o1 = Ok ([], o1 + 4)
  /\ FromString.parse_key_data blob
     = ('(n_bytes, _) <- FromString.read_ssh_string blob (o1 + 4) ;;
        Ok (0, Py.int_from_bytes_big n_bytes))
  /\ Py.int_from_bytes_big [] = 0
  /\ (forall payload : bytes,
         0 <= Py.int_from_bytes_big payload < 256 ^ len payload).
Proof.
  intros R1 Hlen HL.
  pose proof (read_ok_bounds _ _ _ _ R1) as Hb.
  assert (R2 : FromString.read_ssh_string blob o1 = Ok ([], o1 + 4)).
  { rewrite read_unfold by lia. cbv zeta. rewrite HL.
    replace (o1 + 4 + 0) with (o1 + 4) by lia.
    destruct (o1 + 4 >? len blob) eqn:E.
    { rewrite Z.gtb_ltb in E. apply Z.ltb_lt in E. lia. }
    rewrite slice_inside by lia.
    replace (o1 + 4 - (o1 + 4)) with 0 by lia. reflexivity. }
  split; [exact R2|]. split; [|split].
  - unfold FromString.parse_key_data. cbv zeta. rewrite R1. cbn [bind].
    replace (Py.decode_utf8 (bytes_of_string "ssh-rsa")) with (Ok ssh_rsa)
      by (vm_compute; reflexivity).
    cbn [bind]. rewrite str_eqb_refl. cbn [negb]. rewrite R2. cbn [bind].
    destruct (FromString.read_ssh_string blob (o1 + 4)) as [[n_bytes o3]|];
      reflexivity.
  - reflexivity.
  - apply int_from_bytes_big_range.
Qed.

Lemma empty_exponent_is_zero_witness :
  FromString.parse_key_data empty_exponent_blob = Ok (0, 261).
Proof.
  destruct (empty_exponent_is_zero empty_exponent_blob 11) as (_ & H & _).
  - reflexivity.
  - vm_compute. discriminate.
  - reflexivity.
  - rewrite H. reflexivity.
Defined.

(** ** Round trip through the wire format *)

Lemma len_to_bytes_big (size : nat) (n : Z) :
  len (Wire.to_bytes_big size n) = Z.of_nat size.
Proof. unfold len. now rewrite length_to_bytes_big. Qed.

(** Reading a field where one was written. *)
Lemma read_written_field (pre payload post : bytes) :
  len payload < 2 ^ 32 ->
  FromString.read_ssh_string
    (pre ++ (Wire.to_bytes_big 4 (len payload) ++ payload) ++ post) (len pre)
  = Ok (payload, len pre + 4 + len payload).
Proof.
  intros Hp.
  set (hdr := Wire.to_bytes_big 4 (len payload)).
  set (data := pre ++ (hdr ++ payload) ++ post).
  pose proof (len_nonneg pre) as H0.
  pose proof (len_nonneg payload) as H1.
  pose proof (len_nonneg post) as H2.
  assert (Hh : len hdr = 4) by apply len_to_bytes_big.
  assert (Hd : len data = len pre + 4 + len payload + len post)
    by (unfold data; rewrite !len_app; lia).
  assert (HL : uint32_be_at data (len pre) = len payload).
  { destruct (four_octets data (len pre)) as [_ <-]; [lia..|].
    replace data with (pre ++ hdr ++ (payload ++ post))
      by (unfold data; now rewrite <- !app_assoc).
    rewrite <- Hh, slice_middle. apply from_to_bytes_big.
    change (256 ^ Z.of_nat 4) with (2 ^ 32). lia. }
  rewrite read_unfold by lia. cbv zeta. rewrite HL.
  destruct (len pre + 4 + len payload >? len data) eqn:E.
  { rewrite Z.gtb_ltb in E. apply Z.ltb_lt in E. lia. }
  replace data with ((pre ++ hdr) ++ payload ++ post)
    by (unfold data; now rewrite <- !app_assoc).
  replace (len pre + 4) with (len (pre ++ hdr)) by (rewrite len_app; lia).
  now rewrite slice_middle.
Qed.

Lemma field_some (payload : bytes) :
  len payload < 2 ^ 32 ->
  Wire.field payload = Some (Wire.to_bytes_big 4 (len payload) ++ payload).
Proof.
  intros H. unfold Wire.field.
  destruct (len payload <? 2 ^ 32) eqn:E; [reflexivity|].
  apply Z.ltb_ge in E. lia.
Qed.

(** The blob stage on three written fields. *)
Lemma parse_written_fields (e_bytes n_bytes : bytes) :
  len e_bytes < 2 ^ 32 -> len n_bytes < 2 ^ 32 ->
  FromString.parse_key_data
    ((Wire.to_bytes_big 4 7 ++ bytes_of_string "ssh-rsa")
     ++ (Wire.to_bytes_big 4 (len e_bytes) ++ e_bytes)
     ++ (Wire.to_bytes_big 4 (len n_bytes) ++ n_bytes))
  = Ok (Py.int_from_bytes_big e_bytes, Py.int_from_bytes_big n_bytes).
Proof.
  intros He Hn.
  set (tag := bytes_of_string "ssh-rsa").
  set (f0 := Wire.to_bytes_big 4 7 ++ tag).
  set (f1 := Wire.to_bytes_big 4 (len e_bytes) ++ e_bytes).
  set (f2 := Wire.to_bytes_big 4 (len n_bytes) ++ n_bytes).
  assert (R1 : FromString.read_ssh_string (f0 ++ f1 ++ f2) 0 = Ok (tag, 11)).
  { exact (read_written_field [] tag (f1 ++ f2) eq_refl). }
  assert (R2 : FromString.read_ssh_string (f0 ++ f1 ++ f2) 11
               = Ok (e_bytes, 11 + 4 + len e_bytes)).
  { pose proof (read_written_field f0 e_bytes f2 He) as H.
    change (len f0) with 11 in H. fold f1 in H. exact H. }
  assert (R3 : FromString.read_ssh_string (f0 ++ f1 ++ f2) (11 + 4 + len e_bytes)
               = Ok (n_bytes, len (f0 ++ f1) + 4 + len n_bytes)).
  { pose proof (read_written_field (f0 ++ f1) n_bytes [] Hn) as H.
    fold f2 in H. rewrite app_nil_r, <- app_assoc in H.
    replace (11 + 4 + len e_bytes) with (len (f0 ++ f1)); [exact H|].
    rewrite len_app. unfold f1. rewrite len_app, len_to_bytes_big.
    change (len f0) with 11. lia. }
  unfold FromString.parse_key_data. cbv zeta. rewrite R1. cbn [bind].
  replace (Py.decode_utf8 tag) with (Ok ssh_rsa) by (vm_compute; reflexivity).
  cbn [bind]. rewrite str_eqb_refl. cbn [negb].
  rewrite R2. cbn [bind]. rewrite R3. reflexivity.
Qed.

(** C1.  For non-negative [e] and [n] whose minimal big-endian encodings
    are short enough for a 4-byte length (fewer than 2^32 octets), the
    blob of the three length-prefixed fields ["ssh-rsa"], [e], [n] exists
    and the blob stage returns [(e, n)] on it. *)
Theorem blob_round_trip (e n : Z) :
  0 <= e -> 0 <= n ->
  len (Wire.minimal_big_endian e) < 2 ^ 32 ->
  len (Wire.minimal_big_endian n) < 2 ^ 32 ->
  exists blob,
    Wire.encode_blob e n = Some blob
    /\ FromString.parse_key_data blob = Ok (e, n).
Proof.
  intros He Hn Le Ln. unfold Wire.encode_blob.
  rewrite (field_some (bytes_of_string "ssh-rsa")) by reflexivity.
  rewrite (field_some _ Le), (field_some _ Ln).
  eexists. split; [reflexivity|].
  change (len (bytes_of_string "ssh-rsa")) with 7.
  rewrite parse_written_fields by assumption.
  now rewrite !minimal_big_endian_value by assumption.
Qed.

Lemma blob_round_trip_witness :
  exists blob,
    Wire.encode_blob 65537 66051 = Some blob
    /\ FromString.parse_key_data blob = Ok (65537, 66051).
Proof.
  apply blob_round_trip.
  - lia.
  - lia.
  - reflexivity.
  - reflexivity.
Defined.

Lemma minimal_big_endian_length (n : Z) :
  0 < n -> len (Wire.minimal_big_endian n) = Z.log2 n / 8 + 1.
Proof.
  intros Hn. unfold Wire.minimal_big_endian. rewrite len_to_bytes_big.
  unfold Wire.byte_length.
  destruct (n <=? 0) eqn:E; [apply Z.leb_le in E; lia|].
  pose proof (Z.log2_nonneg n).
  rewrite Z2Nat.id by (apply Z.div_pos; lia).
  replace (Z.log2 n + 8) with (Z.log2 n + 1 * 8) by lia.
  now rewrite Z.div_add by lia.
Qed.

(** An integer below [256 ^ k] has a minimal encoding of at most [k]
    octets; so every integer below [256 ^ (2 ^ 32 - 1)] has a field. *)
Lemma minimal_big_endian_fits (n k : Z) :
  0 <= k -> 0 <= n < 2 ^ (8 * k) ->
  len (Wire.minimal_big_endian n) <= k.
Proof.
  intros Hk [H0 H1]. destruct (Z.eq_dec n 0) as [-> | Hn].
  - change (len (Wire.minimal_big_endian 0)) with 0. exact Hk.
  - rewrite minimal_big_endian_length by lia.
    apply Z.log2_lt_pow2 in H1; [|lia].
    pose proof (Z.log2_nonneg n) as Hl.
    destruct (Z.eq_dec k 0) as [-> | Hk0]; [lia|].
    assert (Z.log2 n / 8 < k) by (apply Z.div_lt_upper_bound; lia).
    lia.
Qed.

(** ** The type tag inside the blob *)

Example decode_utf8_samples :
  Py.decode_utf8 [xc2; x80] = Ok [128%N]
  /\ Py.decode_utf8 [xc0; x80] = Raise UnicodeDecodeError
  /\ Py.decode_utf8 [xe0; xa0; x80] = Ok [2048%N]
  /\ Py.decode_utf8 [xed; xa0; x80] = Raise UnicodeDecodeError
  /\ Py.decode_utf8 [xf4; x8f; xbf; xbf] = Ok [1114111%N]
  /\ Py.decode_utf8 [xf4; x90; x80; x80] = Raise UnicodeDecodeError
  /\ Py.decode_utf8 [x80] = Raise UnicodeDecodeError.
Proof. repeat split. Qed.

Ltac split_decode H :=
  repeat match type of H with
         | context [if ?c then _ else _] => destruct c eqn:?
         | context [match ?l with [] => _ | _ :: _ => _ end] => destruct l
         | context [bind ?r _] => destruct r; cbn [bind] in H
         end.

Lemma decode_utf8_nil (bs : bytes) : Py.decode_utf8 bs = Ok [] -> bs = [].
Proof.
  destruct bs as [|b0 r0]; [reflexivity|].
  cbn [Py.decode_utf8]. cbv zeta. intros H. split_decode H; discriminate.
Qed.

Lemma decode_utf8_ascii_head (b0 : byte) (r0 : bytes) (c : N) (s : str) :
  Py.decode_utf8 (b0 :: r0) = Ok (c :: s) ->
  (c < 128)%N ->
  byte_N b0 = c /\ Py.decode_utf8 r0 = Ok s.
Proof.
  cbn [Py.decode_utf8]. cbv zeta. intros H Hc.
  split_decode H; try discriminate; injection H as <- <-;
    try (split; reflexivity);
    exfalso;
    repeat match goal with
           | E : (_ <? _)%N = true |- _ => apply N.ltb_lt in E
           | E : (_ <? _)%N = false |- _ => apply N.ltb_ge in E
           | E : (_ =? _)%N = true |- _ => apply N.eqb_eq in E
           | E : (_ =? _)%N = false |- _ => apply N.eqb_neq in E
           | E : (_ && _) = true |- _ => apply andb_prop in E as [? ?]
           | E : (_ <=? _)%N = true |- _ => apply N.leb_le in E
           | E : Py.is_continuation _ = true |- _ =>
               unfold Py.is_continuation in E
           end;
    lia.
Qed.

Lemma byte_N_inj (a b : byte) : byte_N a = byte_N b -> a = b.
Proof.
  unfold byte_N. intros H.
  pose proof (Byte.of_to_N a) as Ha. rewrite H, Byte.of_to_N in Ha.
  congruence.
Qed.

(** Strict UTF-8 has a single encoding of the tag. *)
Lemma decode_utf8_ssh_rsa (bs : bytes) :
  Py.decode_utf8 bs = Ok ssh_rsa <-> bs = bytes_of_string "ssh-rsa".
Proof.
  split; [|intros ->; vm_compute; reflexivity].
  change ssh_rsa with [115; 115; 104; 45; 114; 115; 97]%N.
  intros H.
  repeat match type of H with
         | Py.decode_utf8 ?l = Ok (_ :: _) =>
             destruct l as [|? ?]; [discriminate|];
             apply decode_utf8_ascii_head in H as [? H]; [|lia]
         end.
  apply decode_utf8_nil in H. subst.
  repeat match goal with
         | E : byte_N ?b = ?v |- _ =>
             apply (byte_N_inj b (byte_of_N v)) in E; subst b
         end.
  reflexivity.
Qed.

(** X10.  When the first field is readable and its payload is text other
    than ["ssh-rsa"], the blob stage raises the error that reports the
    text, whatever follows the field. *)
Lemma type_tag_mismatch_reported (blob payload : bytes) (o1 : Z) (text : str) :
  FromString.read_ssh_string blob 0 = Ok (payload, o1) ->
  Py.decode_utf8 payload = Ok text ->
  payload <> bytes_of_string "ssh-rsa" ->
  FromString.parse_key_data blob = Raise (InvalidKeyTypeInData text).
Proof.
  intros R1 D Hne. unfold FromString.parse_key_data. cbv zeta.
  rewrite R1. cbn [bind]. rewrite D. cbn [bind].
  destruct (str_eqb text ssh_rsa) eqn:Q; [|reflexivity].
  apply str_eqb_eq in Q. subst. apply decode_utf8_ssh_rsa in D. contradiction.
Qed.

(** When the payload of the first field is not text, [bytes.decode]
    raises before the comparison. *)
Lemma type_tag_undecodable (blob payload : bytes) (o1 : Z) :
  FromString.read_ssh_string blob 0 = Ok (payload, o1) ->
  Py.decode_utf8 payload = Raise UnicodeDecodeError ->
  FromString.parse_key_data blob = Raise UnicodeDecodeError.
Proof.
  intros R1 D. unfold FromString.parse_key_data. cbv zeta.
  rewrite R1. cbn [bind]. rewrite D. reflexivity.
Qed.

(** C7.  On the blob [b'\x00\x00\x00\x01\xff'] the first field is
    readable with payload [b'\xff'], which differs from ["ssh-rsa"] and is
    not UTF-8 text: the blob stage raises [UnicodeDecodeError], not the
    invalid-key-type error, and so does the whole function on the line
    ["ssh-rsa AAAAAf8="]. *)
Theorem undecodable_type_tag :
  FromString.read_ssh_string [x00; x00; x00; x01; xff] 0 = Ok ([xff], 5)
  /\ [xff] <> bytes_of_string "ssh-rsa"
  /\ FromString.parse_key_data [x00; x00; x00; x01; xff]
     = Raise UnicodeDecodeError
  /\ FromString.extract_rsa_components_from_string
       (str_of_string "ssh-rsa AAAAAf8=")
     = Raise UnicodeDecodeError.
Proof. repeat split; try discriminate; vm_compute; reflexivity. Qed.

(** ** The envelope stage: [strip] and [split] *)

Lemma split_from_space (cur : str) (c : N) (s : str) :
  Py.isspace c = true ->
  Py.split_from cur (c :: s) = flush cur (Py.split_from [] s).
Proof. intros H. cbn [Py.split_from]. rewrite H. now destruct cur. Qed.

Lemma split_from_nonspace (cur : str) (c : N) (s : str) :
  Py.isspace c = false ->
  Py.split_from cur (c :: s) = Py.split_from (cur ++ [c]) s.
Proof. intros H. cbn [Py.split_from]. now rewrite H. Qed.

Lemma split_from_lstrip (s : str) :
  Py.split_from [] (Py.lstrip s) = Py.split_from [] s.
Proof.
  induction s as [|c s IH]; [reflexivity|].
  cbn [Py.lstrip]. destruct (Py.isspace c) eqn:E; [|reflexivity].
  now rewrite split_from_space.
Qed.

Lemma split_from_snoc_space (s : str) (w : N) (cur : str) :
  Py.isspace w = true ->
  Py.split_from cur (s ++ [w]) = Py.split_from cur s.
Proof.
  intros Hw. revert cur. induction s as [|c s IH]; intros cur.
  - cbn [app]. rewrite split_from_space by assumption. now destruct cur.
  - cbn [app]. destruct (Py.isspace c) eqn:E.
    + now rewrite !split_from_space, IH.
    + now rewrite !split_from_nonspace, IH.
Qed.

Lemma split_from_rstrip (s cur : str) :
  Py.split_from cur (Py.rstrip s) = Py.split_from cur s.
Proof.
  unfold Py.rstrip. rewrite <- (rev_involutive s) at 2.
  induction (rev s) as [|c r IH]; [reflexivity|].
  cbn [Py.lstrip]. destruct (Py.isspace c) eqn:E; [|reflexivity].
  rewrite IH. cbn [rev]. now rewrite split_from_snoc_space.
Qed.

(** Stripping first does not change the tokens. *)
Lemma split_strip (s : str) : Py.split (Py.strip s) = Py.split s.
Proof.
  unfold Py.split, Py.strip. now rewrite split_from_rstrip, split_from_lstrip.
Qed.

Lemma splits_as_space (c : N) (s : str) (toks : list str) :
  Py.isspace c = true -> splits_as s toks -> splits_as (c :: s) toks.
Proof.
  intros Hc H. destruct H as [ws Hws | ws tok rest toks Hws Ht Hn Hr Hs].
  - apply splits_blank. cbn [forallb]. now rewrite Hc.
  - apply (splits_token (c :: ws) tok rest toks); auto.
    cbn [forallb]. now rewrite Hc.
Qed.

Lemma split_from_splits (s cur : str) :
  forallb (fun c => negb (Py.isspace c)) cur = true ->
  splits_as (cur ++ s) (Py.split_from cur s).
Proof.
  revert cur. induction s as [|c s IH]; intros cur Hcur.
  - destruct cur as [|x cur]; cbn [Py.split_from].
    + now apply splits_blank.
    + apply (splits_token [] (x :: cur) [] []); auto; try discriminate.
      now apply splits_blank.
  - destruct (Py.isspace c) eqn:E.
    + rewrite split_from_space by assumption.
      assert (Hs : splits_as (c :: s) (Py.split_from [] s))
        by (apply splits_as_space; [assumption | now apply (IH [])]).
      destruct cur as [|x cur]; cbn [flush]; [exact Hs|].
      apply (splits_token [] (x :: cur) (c :: s)); auto. discriminate.
    + rewrite split_from_nonspace by assumption.
      replace (cur ++ c :: s) with ((cur ++ [c]) ++ s)
        by (now rewrite <- app_assoc).
      apply IH. rewrite forallb_app, Hcur. cbn [forallb]. now rewrite E.
Qed.

(** The tokens of the envelope stage are the whitespace-separated runs
    of the input. *)
Lemma envelope_tokens (s : str) : splits_as s (Py.split (Py.strip s)).
Proof. rewrite split_strip. now apply (split_from_splits s []). Qed.

(** A text has one list of tokens. *)
Lemma splits_as_unique (s : str) (toks toks' : list str) :
  splits_as s toks -> splits_as s toks' -> toks = toks'.
Proof.
  assert (Hsplit : forall s toks, splits_as s toks -> toks = Py.split s).
  { clear. intros s toks H. unfold Py.split.
    induction H as [ws Hws | ws tok rest toks Hws Ht Hn Hr Hs IH].
    - induction ws as [|c ws IHw]; [reflexivity|].
      cbn [forallb] in Hws. apply andb_prop in Hws as [Hc Hws].
      rewrite split_from_space by assumption. now apply IHw.
    - induction ws as [|c ws IHw].
      + cbn [app].
        assert (G : forall cur,
                   flush (cur ++ tok) (Py.split_from [] rest)
                   = Py.split_from cur (tok ++ rest)).
        { clear IH Hs Ht. induction tok as [|x tok IHt]; intros cur.
          - cbn [app]. rewrite app_nil_r.
            destruct rest as [|c rest]; [reflexivity|].
            now rewrite !split_from_space.
          - cbn [forallb] in Hn. apply andb_prop in Hn as [Hx Hn].
            apply negb_true_iff in Hx. cbn [app].
            rewrite split_from_nonspace by assumption.
            rewrite <- IHt by assumption. now rewrite <- app_assoc. }
        rewrite <- G. cbn [app]. rewrite <- IH.
        destruct tok; [contradiction|reflexivity].
      + cbn [forallb] in Hws. apply andb_prop in Hws as [Hc Hws].
        cbn [app]. rewrite split_from_space by assumption. now apply IHw. }
  intros H H'. rewrite (Hsplit _ _ H), (Hsplit _ _ H'). reflexivity.
Qed.

(** ** The exceptions of each stage *)

Lemma a2b_base64_loop_raise (ascii_data : bytes) (quad_pos : nat)
    (leftchar : N) (pads : nat) (bin_data : bytes) (e : exn) :
  Py.a2b_base64_loop ascii_data quad_pos leftchar pads bin_data = Raise e ->
  is_binascii_Error e = true.
Proof.
  revert quad_pos leftchar pads bin_data.
  induction ascii_data as [|b rest IH]; intros quad_pos leftchar pads bin_data;
    cbn [Py.a2b_base64_loop]; cbv zeta.
  - destruct quad_pos as [|[|q]]; intros H; try discriminate;
      injection H as <-; reflexivity.
  - destruct (byte_N b =? 61)%N.
    + destruct (2 <=? quad_pos)%nat; [|apply IH].
      destruct (4 <=? quad_pos + S pads)%nat; [discriminate|apply IH].
    + destruct (Py.table_a2b_base64 (byte_N b)); [|apply IH].
      destruct quad_pos as [|[|[|q]]]; apply IH.
Qed.

Lemma b64decode_raise (s : str) (e : exn) :
  Py.b64decode s = Raise e ->
  e = NonAsciiArgument \/ is_binascii_Error e = true.
Proof.
  unfold Py.b64decode, Py.a2b_base64.
  destruct (Py.encode_ascii s).
  - intros H. right. eapply a2b_base64_loop_raise; eauto.
  - intros H. injection H as <-. now left.
Qed.

Lemma decode_utf8_raise (bs : bytes) (e : exn) :
  Py.decode_utf8 bs = Raise e -> e = UnicodeDecodeError.
Proof.
  remember (length bs) as k eqn:Hk. revert bs Hk.
  induction k as [k IH] using lt_wf_ind. intros bs -> H.
  destruct bs as [|b0 r0]; [discriminate|].
  cbn [Py.decode_utf8] in H. cbv zeta in H.
  repeat match type of H with
         | context [if ?c then _ else _] => destruct c
         | context [match ?l with [] => _ | _ :: _ => _ end] => destruct l
         end;
    try (injection H as <-; reflexivity);
    match type of H with
    | context [bind (Py.decode_utf8 ?r) _] =>
        destruct (Py.decode_utf8 r) eqn:D; cbn [bind] in H;
        [discriminate
        | injection H as <-; eapply IH; [|reflexivity|exact D];
          cbn [length]; lia]
    end.
Qed.

Lemma read_raise (buffer : bytes) (offset : Z) (e : exn) :
  0 <= offset ->
  FromString.read_ssh_string buffer offset = Raise e ->
  e = CannotReadLength offset
  \/ e = CannotReadBytes (uint32_be_at buffer offset) (offset + 4).
Proof.
  intros H0 H.
  destruct (Z_gt_le_dec (offset + 4) (len buffer)) as [Hs|Hs].
  - rewrite read_prefix_short in H by assumption. injection H as <-. now left.
  - rewrite read_unfold in H by assumption. cbv zeta in H.
    destruct (_ >? _); [|discriminate]. injection H as <-. now right.
Qed.

Lemma parse_key_data_raise (key_data : bytes) (e : exn) :
  FromString.parse_key_data key_data = Raise e ->
  is_ValueError e = true /\ is_binascii_Error e = false.
Proof.
  unfold FromString.parse_key_data. cbv zeta.
  destruct (FromString.read_ssh_string key_data 0) as [[p1 o1]|e1] eqn:R1;
    cbn [bind].
  2:{ intros H. injection H as <-.
      apply read_raise in R1 as [-> | ->]; [split; reflexivity..|lia]. }
  pose proof (read_ok_bounds _ _ _ _ R1) as B1.
  destruct (Py.decode_utf8 p1) as [key_type|e1] eqn:D; cbn [bind].
  2:{ intros H. injection H as <-. apply decode_utf8_raise in D as ->.
      split; reflexivity. }
  destruct (str_eqb key_type ssh_rsa); cbn [negb].
  2:{ intros H. injection H as <-. split; reflexivity. }
  destruct (FromString.read_ssh_string key_data o1) as [[p2 o2]|e1] eqn:R2;
    cbn [bind].
  2:{ intros H. injection H as <-.
      apply read_raise in R2 as [-> | ->]; [split; reflexivity..|lia]. }
  pose proof (read_ok_bounds _ _ _ _ R2) as B2.
  destruct (FromString.read_ssh_string key_data o2) as [[p3 o3]|e1] eqn:R3;
    cbn [bind]; [discriminate|].
  intros H'. injection H' as <-.
  apply read_raise in R3 as [-> | ->]; [split; reflexivity..|lia].
Qed.

(** The function after the two envelope checks. *)
Lemma from_string_tokens (s token : str) (rest : list str) :
  Py.split (Py.strip s) = ssh_rsa :: token :: rest ->
  FromString.extract_rsa_components_from_string s
  = (key_data <- Py.b64decode token ;; FromString.parse_key_data key_data).
Proof.
  intros Hp. unfold FromString.extract_rsa_components_from_string. cbv zeta.
  rewrite Hp.
  replace (len (ssh_rsa :: token :: rest) <? 2) with false.
  2:{ symmetry. apply Z.ltb_ge. unfold len. cbn [length]. lia. }
  reflexivity.
Qed.

Lemma from_string_few_tokens (s : str) :
  len (Py.split (Py.strip s)) < 2 ->
  FromString.extract_rsa_components_from_string s = Raise InvalidFormat.
Proof.
  intros H. unfold FromString.extract_rsa_components_from_string. cbv zeta.
  apply Z.ltb_lt in H. now rewrite H.
Qed.

Lemma from_string_other_type (s key_type token : str) (rest : list str) :
  Py.split (Py.strip s) = key_type :: token :: rest ->
  key_type <> ssh_rsa ->
  FromString.extract_rsa_components_from_string s
  = Raise (ExpectedKeyType key_type).
Proof.
  intros Hp Hne. unfold FromString.extract_rsa_components_from_string.
  cbv zeta. rewrite Hp.
  replace (len (key_type :: token :: rest) <? 2) with false.
  2:{ symmetry. apply Z.ltb_ge. unfold len. cbn [length]. lia. }
  change (Py.getitem (key_type :: token :: rest) 0) with (Ok key_type).
  cbn [bind].
  destruct (str_eqb key_type ssh_rsa) eqn:Q; [|reflexivity].
  apply str_eqb_eq in Q. contradiction.
Qed.

Lemma tokens_cases (parts : list str) :
  len parts < 2 \/ exists key_type token rest, parts = key_type :: token :: rest.
Proof.
  destruct parts as [|a [|b r]]; unfold len; cbn [length];
    [left; lia | left; lia | right; eauto].
Qed.

Lemma from_string_raise (s : str) (e : exn) :
  FromString.extract_rsa_components_from_string s = Raise e ->
  is_ValueError e = true.
Proof.
  destruct (tokens_cases (Py.split (Py.strip s)))
    as [Hf | (key_type & token & rest & Hp)].
  - rewrite from_string_few_tokens by assumption.
    intros H. injection H as <-. reflexivity.
  - destruct (str_eqb key_type ssh_rsa) eqn:Q.
    + apply str_eqb_eq in Q. subst key_type.
      rewrite (from_string_tokens _ _ _ Hp).
      destruct (Py.b64decode token) as [key_data|e1] eqn:B; cbn [bind].
      * intros H. now apply parse_key_data_raise in H.
      * intros H. injection H as <-.
        apply b64decode_raise in B as [-> | B]; [reflexivity|].
        now destruct e1.
    + rewrite (from_string_other_type _ _ _ _ Hp).
      * intros H. injection H as <-. reflexivity.
      * intros ->. now rewrite str_eqb_refl in Q.
Qed.

(** C6.  For every input string: the tokens the envelope stage works on
    are the whitespace-separated runs of the input, surrounding
    whitespace dropped; with fewer than 2 tokens the function raises the
    invalid-format error; with a first token other than ["ssh-rsa"],
    compared exactly, it raises the expected-key-type error, as on
    ["dsa-key AAAA"] and on ["SSH-RSA AAAA"]; it returns a pair only when
    the first token is ["ssh-rsa"], and whatever it raises is a
    [ValueError]. *)
Theorem envelope_stage (s : str) :
  let parts := Py.split (Py.strip s) in
  splits_as s parts
  /\ (len parts < 2 ->
      FromString.extract_rsa_components_from_string s = Raise InvalidFormat)
  /\ (forall key_type token rest,
         parts = key_type :: token :: rest -> key_type <> ssh_rsa ->
         FromString.extract_rsa_components_from_string s
         = Raise (ExpectedKeyType key_type))
  /\ (forall p,
         FromString.extract_rsa_components_from_string s = Ok p ->
         exists token rest, parts = ssh_rsa :: token :: rest)
  /\ (forall e,
         FromString.extract_rsa_components_from_string s = Raise e ->
         is_ValueError e = true)
  /\ FromString.extract_rsa_components_from_string (str_of_string "dsa-key AAAA")
     = Raise (ExpectedKeyType (str_of_string "dsa-key"))
  /\ FromString.extract_rsa_components_from_string (str_of_string "SSH-RSA AAAA")
     = Raise (ExpectedKeyType (str_of_string "SSH-RSA")).
Proof.
  cbv zeta. split; [apply envelope_tokens|].
  split; [apply from_string_few_tokens|].
  split; [apply from_string_other_type|].
  split; [|split; [apply from_string_raise | split; vm_compute; reflexivity]].
  intros p H.
  destruct (tokens_cases (Py.split (Py.strip s)))
    as [Hf | (key_type & token & rest & Hp)].
  - rewrite from_string_few_tokens in H by assumption. discriminate.
  - destruct (str_eqb key_type ssh_rsa) eqn:Q.
    + apply str_eqb_eq in Q. subst. eauto.
    + rewrite (from_string_other_type _ _ _ _ Hp) in H; [discriminate|].
      intros ->. now rewrite str_eqb_refl in Q.
Qed.

Lemma envelope_stage_witness :
  FromString.extract_rsa_components_from_string (str_of_string "  ssh-rsa  ")
  = Raise InvalidFormat
  /\ FromString.extract_rsa_components_from_string
       (str_of_string "ecdsa AAAA comment")
     = Raise (ExpectedKeyType (str_of_string "ecdsa")).
Proof.
  split.
  - apply (proj1 (proj2 (envelope_stage (str_of_string "  ssh-rsa  ")))).
    vm_compute. reflexivity.
  - apply (proj1 (proj2 (proj2
             (envelope_stage (str_of_string "ecdsa AAAA comment"))))
             (str_of_string "ecdsa") (str_of_string "AAAA")
             [str_of_string "comment"]).
    + vm_compute. reflexivity.
    + vm_compute. discriminate.
Defined.

(** ** The base64 token *)

(** Without padding characters the decoder's outcome depends only on the
    number of alphabet characters it meets. *)
Lemma a2b_base64_loop_pad_free (bs : bytes) :
  forall (quad_pos : nat) (leftchar : N) (pads : nat) (bin_data : bytes),
    (quad_pos < 4)%nat ->
    pad_free bs = true ->
    (((quad_pos + data_octets bs) mod 4 = 0)%nat ->
     exists out,
       Py.a2b_base64_loop bs quad_pos leftchar pads bin_data = Ok out)
    /\ (((quad_pos + data_octets bs) mod 4 <> 0)%nat ->
        exists e,
          Py.a2b_base64_loop bs quad_pos leftchar pads bin_data = Raise e
          /\ is_binascii_Error e = true).
Proof.
  induction bs as [|b rest IH]; intros quad_pos leftchar pads bin_data Hq Hp.
  - unfold data_octets. cbn [filter length Py.a2b_base64_loop].
    rewrite Nat.add_0_r, Nat.mod_small by assumption.
    destruct quad_pos as [|[|q]]; split; intros H; try lia; eauto.
  - unfold pad_free in Hp. cbn [forallb] in Hp.
    apply andb_prop in Hp as [Hb Hp]. fold (pad_free rest) in Hp.
    apply negb_true_iff in Hb. unfold is_pad in Hb.
    cbn [Py.a2b_base64_loop]. cbv zeta. rewrite Hb.
    unfold data_octets. cbn [filter].
    destruct (Py.table_a2b_base64 (byte_N b)) as [v|] eqn:T;
      [replace (in_alphabet (byte_N b)) with true
        by (unfold in_alphabet; now rewrite T)
      |replace (in_alphabet (byte_N b)) with false
        by (unfold in_alphabet; now rewrite T)].
    + cbn [length]. fold (data_octets rest).
      assert (Hm : forall q', (q' < 4)%nat ->
                 ((S quad_pos) mod 4 = q')%nat ->
                 ((quad_pos + S (data_octets rest)) mod 4
                  = (q' + data_octets rest) mod 4)%nat).
      { intros q' _ <-.
        replace (quad_pos + S (data_octets rest))%nat
          with (S quad_pos + data_octets rest)%nat by lia.
        now rewrite Nat.Div0.add_mod_idemp_l. }
      destruct quad_pos as [|[|[|[|q]]]]; try lia.
      * rewrite (Hm 1%nat) by (auto; lia). apply IH; auto; lia.
      * rewrite (Hm 2%nat) by (auto; lia). apply IH; auto; lia.
      * rewrite (Hm 3%nat) by (auto; lia). apply IH; auto; lia.
      * rewrite (Hm 0%nat) by (auto; lia). apply IH; auto; lia.
    + fold (data_octets rest). apply IH; auto.
Qed.

Lemma encode_ascii_octets (token : str) (bs : bytes) :
  Py.encode_ascii token = Some bs ->
  data_octets bs = data_characters token
  /\ pad_free bs = negb (existsb is_pad token).
Proof.
  revert bs. induction token as [|c token IH]; intros bs H.
  - injection H as <-. split; reflexivity.
  - cbn [Py.encode_ascii] in H.
    destruct (c <? 128)%N eqn:Hc; [|discriminate].
    destruct (Py.encode_ascii token) as [bs'|]; [|discriminate].
    injection H as <-. destruct (IH bs' eq_refl) as [IH1 IH2].
    apply N.ltb_lt in Hc.
    assert (Hb : byte_N (byte_of_N c) = c)
      by (rewrite byte_N_of_N; apply N.mod_small; lia).
    unfold data_octets, data_characters, pad_free in *.
    cbn [filter forallb existsb]. rewrite Hb, IH2.
    split.
    + destruct (in_alphabet c); cbn [length]; congruence.
    + now rewrite negb_orb.
Qed.

Example key_type_checked_before_token :
  FromString.extract_rsa_components_from_string
    (str_of_string "dsa-key !!!notbase64!!!")
  = Raise (ExpectedKeyType (str_of_string "dsa-key")).
Proof. vm_compute. reflexivity. Qed.

(** C5, as stated, fails: the second token of the line
    ["ssh-rsa AAAAB3Nza!C1yc2EAAAADAQABAAAAAwECAw=="] holds a character
    outside the alphabet, and the function returns [(65537, 66051)]. *)
Lemma malformed_token_accepted : ~ rejects_every_malformed_token.
Proof.
  intros H.
  destruct (H (str_of_string "ssh-rsa AAAAB3Nza!C1yc2EAAAADAQABAAAAAwECAw==")
              (str_of_string "AAAAB3Nza!C1yc2EAAAADAQABAAAAAwECAw=="))
    as (e & He & _).
  - vm_compute. reflexivity.
  - vm_compute. reflexivity.
  - vm_compute in He. discriminate.
Qed.

(** C5, amended.  On a line whose first token is ["ssh-rsa"], an error of
    [base64.b64decode] on the second token is the error of the function.
    The decoder skips the characters outside the alphabet: a token of
    ASCII characters without ['='] is rejected, with [binascii.Error],
    exactly when the number of its alphabet characters is not a multiple
    of 4, and a token with a character that is not ASCII is rejected with
    the non-ASCII [ValueError].  The line ["ssh-rsa !!!notbase64!!!"] is
    rejected with [binascii.Error]. *)
Theorem base64_token_rejection (line token : str) (rest : list str) :
  Py.split (Py.strip line) = ssh_rsa :: token :: rest ->
  (forall e,
      Py.b64decode token = Raise e ->
      FromString.extract_rsa_components_from_string line = Raise e
      /\ is_invalid_base64 e = true)
  /\ (forall ascii_data,
         Py.encode_ascii token = Some ascii_data ->
         existsb is_pad token = false ->
         ((data_characters token mod 4 <> 0)%nat <->
          exists e,
            FromString.extract_rsa_components_from_string line = Raise e
            /\ is_binascii_Error e = true))
  /\ (Py.encode_ascii token = None ->
      FromString.extract_rsa_components_from_string line
      = Raise NonAsciiArgument)
  /\ FromString.extract_rsa_components_from_string
       (str_of_string "ssh-rsa !!!notbase64!!!")
     = Raise (BinasciiDataLength 9).
Proof.
  intros Hp. rewrite (from_string_tokens _ _ _ Hp).
  split; [|split; [|split; [|vm_compute; reflexivity]]].
  - intros e B. rewrite B. split; [reflexivity|].
    apply b64decode_raise in B as [-> | B]; [reflexivity|].
    now destruct e.
  - intros ascii_data Ha Hnp.
    destruct (encode_ascii_octets _ _ Ha) as [Hc Hf].
    rewrite Hnp in Hf. cbn [negb] in Hf.
    destruct (a2b_base64_loop_pad_free ascii_data 0 0 0 [] ltac:(lia) Hf)
      as [Hok Hbad].
    cbn [Nat.add] in Hok, Hbad. rewrite Hc in Hok, Hbad.
    unfold Py.b64decode, Py.a2b_base64. rewrite Ha.
    split.
    + intros Hm. destruct (Hbad Hm) as (e & Hr & He).
      rewrite Hr. exists e. split; [reflexivity | exact He].
    + intros (e & Hr & He) Hm. destruct (Hok Hm) as (out & Ho).
      rewrite Ho in Hr. cbn [bind] in Hr.
      apply parse_key_data_raise in Hr as [_ Hr]. congruence.
  - intros Ha. unfold Py.b64decode. now rewrite Ha.
Qed.

Lemma base64_token_rejection_witness :
  exists e,
    FromString.extract_rsa_components_from_string
      (str_of_string "ssh-rsa AAAAB3Nza!C1yc2EAAAADAQABAAAAAwECAw comment")
    = Raise e
    /\ is_binascii_Error e = true.
Proof.
  destruct (base64_token_rejection
              (str_of_string "ssh-rsa AAAAB3Nza!C1yc2EAAAADAQABAAAAAwECAw comment")
              (str_of_string "AAAAB3Nza!C1yc2EAAAADAQABAAAAAwECAw")
              [str_of_string "comment"]) as (_ & H & _).
  - vm_compute. reflexivity.
  - apply (H (list_byte_of_string "AAAAB3Nza!C1yc2EAAAADAQABAAAAAwECAw")).
    + vm_compute. reflexivity.
    + vm_compute. reflexivity.
    + vm_compute. discriminate.
Defined.

(** ** The two entry points *)

Lemma split_from_universal_newlines (s : str) :
  forall cur,
    Py.split_from cur (Py.universal_newlines s) = Py.split_from cur s.
Proof.
  remember (length s) as k eqn:Hk. revert s Hk.
  induction k as [k IH] using lt_wf_ind. intros s -> cur.
  destruct s as [|c s]; [reflexivity|].
  cbn [Py.universal_newlines].
  destruct (c =? 13)%N eqn:Ec.
  - apply N.eqb_eq in Ec. subst c.
    rewrite (split_from_space cur 13) by reflexivity.
    destruct s as [|d s].
    + now rewrite (split_from_space cur 10) by reflexivity.
    + destruct (d =? 10)%N eqn:Ed.
      * apply N.eqb_eq in Ed. subst d.
        rewrite (split_from_space cur 10) by reflexivity.
        rewrite (split_from_space [] 10) by reflexivity. cbn [flush].
        f_equal. eapply IH; [|reflexivity]. cbn [length]. lia.
      * rewrite (split_from_space cur 10) by reflexivity.
        f_equal. eapply IH; [|reflexivity]. cbn [length]. lia.
  - destruct (Py.isspace c) eqn:E.
    + rewrite !split_from_space by assumption.
      f_equal. eapply IH; [|reflexivity]. cbn [length]. lia.
    + rewrite !split_from_nonspace by assumption.
      eapply IH; [|reflexivity]. cbn [length]. lia.
Qed.

(** The translation of line endings done by the text-mode read does not
    change the tokens. *)
Lemma tokens_of_read_text (text : str) :
  Py.split (Py.strip (Py.universal_newlines text)) = Py.split (Py.strip text).
Proof.
  rewrite !split_strip. apply split_from_universal_newlines.
Qed.

(** C9.  For every text [t] and every file system in which the path is
    a readable file holding [t], [extract_rsa_components_manual] on the
    path gives what [extract_rsa_components_from_string] gives on [t]:
    the same pair, or the same exception. *)
Theorem manual_agrees_with_from_string (fs : file_system) (path t : str) :
  fs path = Some t ->
  Manual.extract_rsa_components_manual fs path
  = FromString.extract_rsa_components_from_string t.
Proof.
  intros Hf.
  unfold Manual.extract_rsa_components_manual, read_text. rewrite Hf.
  cbn [bind]. cbv zeta.
  unfold FromString.extract_rsa_components_from_string. cbv zeta.
  rewrite tokens_of_read_text.
  destruct (len (Py.split (Py.strip t)) <? 2); [reflexivity|].
  destruct (Py.getitem (Py.split (Py.strip t)) 0) as [key_type|];
    [|reflexivity].
  cbn [bind]. destruct (negb (str_eqb key_type ssh_rsa)); [reflexivity|].
  destruct (Py.getitem (Py.split (Py.strip t)) 1) as [token|]; [|reflexivity].
  cbn [bind]. destruct (Py.b64decode token) as [key_data|]; [|reflexivity].
  cbn [bind]. unfold FromString.parse_key_data. cbv zeta.
  rewrite manual_reader_same.
  destruct (FromString.read_ssh_string key_data 0) as [[p1 o1]|]; [|reflexivity].
  cbn [bind]. destruct (Py.decode_utf8 p1) as [tag|]; [|reflexivity].
  cbn [bind]. destruct (negb (str_eqb tag ssh_rsa)); [reflexivity|].
  rewrite manual_reader_same.
  destruct (FromString.read_ssh_string key_data o1) as [[p2 o2]|]; [|reflexivity].
  cbn [bind]. rewrite manual_reader_same. reflexivity.
Qed.

Lemma manual_agrees_with_from_string_witness :
  Manual.extract_rsa_components_manual one_file (str_of_string "id_rsa.pub")
  = Ok (65537, 66051).
Proof.
  etransitivity.
  - apply (manual_agrees_with_from_string one_file
             (str_of_string "id_rsa.pub") (scenario_line ++ [13; 10]%N)).
    vm_compute. reflexivity.
  - vm_compute. reflexivity.
Defined.

Example manual_missing_file :
  Manual.extract_rsa_components_manual one_file (str_of_string "other.pub")
  = Raise OSError.
Proof. vm_compute. reflexivity. Qed.

(** * Further properties *)

(** ** The layout of the blobs the blob stage accepts *)

Lemma byte_of_Z_val (x : Z) (b : byte) : byte_of_Z (x * 256 + byte_val b) = b.
Proof.
  unfold byte_of_Z. pose proof (byte_val_range b) as Hb.
  replace ((x * 256 + byte_val b) mod 256) with (byte_val b)
    by (rewrite Z.add_comm, Z.mod_add, Z.mod_small; lia).
  unfold byte_val. rewrite N2Z.id. unfold byte_of_N.
  pose proof (Byte.to_N_bounded b).
  rewrite N.mod_small by lia. now rewrite Byte.of_to_N.
Qed.

(** [to_bytes] undoes [from_bytes] at the same length. *)
Lemma to_from_bytes_big (bs : bytes) :
  Wire.to_bytes_big (length bs) (Py.int_from_bytes_big bs) = bs.
Proof.
  induction bs as [|b bs IH] using rev_ind; [reflexivity|].
  rewrite length_app, Nat.add_comm. cbn [length Nat.add Wire.to_bytes_big].
  rewrite int_from_bytes_big_app. change (len [b]) with 1. rewrite Z.pow_1_r.
  replace (Py.int_from_bytes_big [b]) with (byte_val b)
    by (unfold Py.int_from_bytes_big; cbn [fold_left]; lia).
  rewrite byte_of_Z_val. pose proof (byte_val_range b).
  replace ((Py.int_from_bytes_big bs * 256 + byte_val b) / 256)
    with (Py.int_from_bytes_big bs)
    by (rewrite Z.add_comm, Z.div_add, Z.div_small; lia).
  now rewrite IH.
Qed.

(** What a successful read says about the buffer from [offset] on. *)
Lemma read_layout (buffer : bytes) (offset : Z) (payload : bytes)
    (new_offset : Z) :
  0 <= offset ->
  FromString.read_ssh_string buffer offset = Ok (payload, new_offset) ->
  skipn (Z.to_nat offset) buffer
  = Wire.to_bytes_big 4 (len payload) ++ payload
    ++ skipn (Z.to_nat new_offset) buffer
  /\ len payload < 2 ^ 32
  /\ new_offset = offset + 4 + len payload.
Proof.
  intros H0 H.
  pose proof (read_ok_bounds _ _ _ _ H) as Hb.
  destruct (read_ok_payload _ _ _ _ H0 H) as (Hp & Hl & Ho).
  pose proof (uint32_be_at_nonneg buffer offset) as HL.
  assert (Hlen : len payload = uint32_be_at buffer offset) by lia.
  split; [|lia].
  destruct (four_octets buffer offset) as [H4 Hv]; [lia..|].
  rewrite slice_inside in H4, Hv by lia.
  replace (offset + 4 - offset) with 4 in H4, Hv by lia.
  change (Z.to_nat 4) with 4%nat in H4, Hv.
  set (rest := skipn (Z.to_nat offset) buffer) in *.
  assert (Hh : Wire.to_bytes_big 4 (Py.int_from_bytes_big (firstn 4 rest))
               = firstn 4 rest).
  { pose proof (to_from_bytes_big (firstn 4 rest)) as T.
    replace (length (firstn 4 rest)) with 4%nat in T
      by (unfold len in H4; lia).
    exact T. }
  rewrite <- (firstn_skipn 4 rest) at 1.
  rewrite Hlen, <- Hv, Hh. f_equal.
  unfold rest. rewrite skipn_skipn.
  replace (4 + Z.to_nat offset)%nat with (Z.to_nat (offset + 4)) by lia.
  rewrite <- (firstn_skipn (Z.to_nat (new_offset - (offset + 4)))
                (skipn (Z.to_nat (offset + 4)) buffer)) at 1.
  rewrite skipn_skipn. unfold octets_from in Hp. rewrite <- Hp.
  f_equal. f_equal. lia.
Qed.

Lemma parse_key_data_app (blob extra : bytes) (e n : Z) :
  FromString.parse_key_data blob = Ok (e, n) ->
  FromString.parse_key_data (blob ++ extra) = Ok (e, n).
Proof.
  intros H.
  destruct (parse_key_data_ok_inv _ _ _ H)
    as (p1 & o1 & p2 & o2 & p3 & o3 & R1 & D & R2 & R3 & -> & ->).
  pose proof (read_ok_bounds _ _ _ _ R1).
  pose proof (read_ok_bounds _ _ _ _ R2).
  unfold FromString.parse_key_data. cbv zeta.
  rewrite (read_app blob extra p1 0 o1 ltac:(lia) R1). cbn [bind].
  rewrite D. cbn [bind]. rewrite str_eqb_refl. cbn [negb].
  rewrite (read_app blob extra p2 o1 o2 ltac:(lia) R2). cbn [bind].
  rewrite (read_app blob extra p3 o2 o3 ltac:(lia) R3). reflexivity.
Qed.

(** The fields behind a successful blob stage, and where they end. *)
Lemma parse_key_data_fields (blob : bytes) (e n : Z) :
  FromString.parse_key_data blob = Ok (e, n) ->
  exists e_bytes n_bytes extra,
    blob = tag_field
           ++ (Wire.to_bytes_big 4 (len e_bytes) ++ e_bytes)
           ++ (Wire.to_bytes_big 4 (len n_bytes) ++ n_bytes)
           ++ extra
    /\ len e_bytes < 2 ^ 32 /\ len n_bytes < 2 ^ 32
    /\ e = Py.int_from_bytes_big e_bytes
    /\ n = Py.int_from_bytes_big n_bytes
    /\ FromString.read_ssh_string blob 0 = Ok (bytes_of_string "ssh-rsa", 11)
    /\ FromString.read_ssh_string blob 11 = Ok (e_bytes, 15 + len e_bytes)
    /\ FromString.read_ssh_string blob (15 + len e_bytes)
       = Ok (n_bytes, 19 + len e_bytes + len n_bytes)
    /\ extra = skipn (Z.to_nat (19 + len e_bytes + len n_bytes)) blob.
Proof.
  intros H.
  destruct (parse_key_data_ok_inv _ _ _ H)
    as (p1 & o1 & p2 & o2 & p3 & o3 & R1 & D & R2 & R3 & He & Hn).
  apply decode_utf8_ssh_rsa in D. subst p1.
  pose proof (read_ok_bounds _ _ _ _ R1) as B1.
  pose proof (read_ok_bounds _ _ _ _ R2) as B2.
  destruct (read_layout blob 0 (bytes_of_string "ssh-rsa") o1 ltac:(lia) R1)
    as (L1 & _ & O1).
  change (len (bytes_of_string "ssh-rsa")) with 7 in O1, L1.
  assert (E1 : o1 = 11) by lia. clear O1. subst o1.
  destruct (read_layout blob 11 p2 o2 ltac:(lia) R2) as (L2 & S2 & O2).
  destruct (read_layout blob o2 p3 o3 ltac:(lia) R3) as (L3 & S3 & O3).
  assert (E2 : o2 = 15 + len p2) by lia.
  assert (E3 : o3 = 19 + len p2 + len p3) by lia.
  clear O2 O3. subst o2 o3.
  exists p2, p3, (skipn (Z.to_nat (19 + len p2 + len p3)) blob).
  repeat split; auto.
  change (skipn (Z.to_nat 0) blob) with blob in L1.
  rewrite L1 at 1. rewrite L2, L3. unfold tag_field.
  now rewrite <- !app_assoc.
Qed.

(** X1.  The blob stage returns [(e, n)] exactly on the blobs made of
    the field ["ssh-rsa"], a field whose big-endian value is [e], a field
    whose big-endian value is [n], and any octets after them. *)
Theorem accepted_blob_layout (blob : bytes) (e n : Z) :
  FromString.parse_key_data blob = Ok (e, n)
  <-> exists e_bytes n_bytes extra,
        blob = tag_field
               ++ (Wire.to_bytes_big 4 (len e_bytes) ++ e_bytes)
               ++ (Wire.to_bytes_big 4 (len n_bytes) ++ n_bytes)
               ++ extra
        /\ len e_bytes < 2 ^ 32 /\ len n_bytes < 2 ^ 32
        /\ e = Py.int_from_bytes_big e_bytes
        /\ n = Py.int_from_bytes_big n_bytes.
Proof.
  split.
  - intros H.
    destruct (parse_key_data_fields _ _ _ H)
      as (e_bytes & n_bytes & extra & Hb & He & Hn & Ve & Vn & _).
    exists e_bytes, n_bytes, extra. auto.
  - intros (e_bytes & n_bytes & extra & -> & He & Hn & -> & ->).
    rewrite !app_assoc. apply parse_key_data_app. rewrite <- !app_assoc.
    pose proof (parse_written_fields e_bytes n_bytes He Hn) as P.
    rewrite <- !app_assoc in P. exact P.
Qed.

Lemma accepted_blob_layout_witness :
  FromString.parse_key_data (scenario_blob ++ [xca; xfe]) = Ok (65537, 66051).
Proof.
  apply (proj2 (accepted_blob_layout (scenario_blob ++ [xca; xfe]) 65537 66051)).
  exists [x01; x00; x01], [x01; x02; x03], [xca; xfe].
  repeat split; reflexivity.
Defined.

(** ** Truncated blobs *)

Lemma len_firstn {A : Type} (k : nat) (l : list A) :
  len (firstn k l) = Z.min (Z.of_nat k) (len l).
Proof. unfold len. rewrite length_firstn. lia. Qed.

Lemma slice_firstn {A : Type} (l : list A) (k : nat) (lo hi : Z) :
  0 <= lo -> lo <= hi -> hi <= len (firstn k l) ->
  Py.slice (firstn k l) lo hi = Py.slice l lo hi.
Proof.
  intros H0 H1 H2.
  pose proof (slice_app_inside (firstn k l) (skipn k l) lo hi H0 H1 H2) as S.
  rewrite firstn_skipn in S. now symmetry.
Qed.

(** A read on the first [k] octets of a buffer on which it succeeds. *)
Lemma read_firstn (data payload : bytes) (offset new_offset : Z) (k : nat) :
  0 <= offset ->
  FromString.read_ssh_string data offset = Ok (payload, new_offset) ->
  FromString.read_ssh_string (firstn k data) offset
  = if Z.of_nat k <? offset + 4 then Raise (CannotReadLength offset)
    else if Z.of_nat k <? new_offset
         then Raise (CannotReadBytes (len payload) (offset + 4))
         else Ok (payload, new_offset).
Proof.
  intros H0 H.
  pose proof (read_ok_bounds _ _ _ _ H) as Hb.
  destruct (read_ok_payload _ _ _ _ H0 H) as (_ & Hl & Ho).
  pose proof (uint32_be_at_nonneg data offset) as HL.
  pose proof (len_firstn k data) as Hk.
  destruct (Z.of_nat k <? offset + 4) eqn:E1.
  { apply Z.ltb_lt in E1. apply read_prefix_short. lia. }
  apply Z.ltb_ge in E1.
  assert (HU : uint32_be_at (firstn k data) offset = uint32_be_at data offset).
  { destruct (four_octets data offset) as [_ <-]; [lia..|].
    destruct (four_octets (firstn k data) offset) as [_ <-]; [lia..|].
    now rewrite slice_firstn by lia. }
  rewrite read_unfold in H by lia. cbv zeta in H.
  destruct (offset + 4 + uint32_be_at data offset >? len data) eqn:E;
    [discriminate|].
  injection H as Hp _.
  rewrite read_unfold by lia. cbv zeta. rewrite HU.
  replace (len payload) with (uint32_be_at data offset) by lia.
  rewrite Ho.
  destruct (Z.of_nat k <? offset + 4 + uint32_be_at data offset) eqn:E2.
  - apply Z.ltb_lt in E2.
    destruct (_ >? len (firstn k data)) eqn:E3; [reflexivity|].
    rewrite Z.gtb_ltb in E3. apply Z.ltb_ge in E3. lia.
  - apply Z.ltb_ge in E2.
    destruct (_ >? len (firstn k data)) eqn:E3.
    { rewrite Z.gtb_ltb in E3. apply Z.ltb_lt in E3. lia. }
    rewrite <- Hp. now rewrite slice_firstn by lia.
Qed.

(** X2.  A blob the blob stage accepts has a used part, at least 19
    octets long: the stage returns the same pair on every prefix that
    holds the used part, and raises one of the two truncation errors of
    [read_ssh_string] on every shorter prefix. *)
Theorem truncated_blob_rejected (blob : bytes) (e n : Z) :
  FromString.parse_key_data blob = Ok (e, n) ->
  exists used,
    19 <= used <= len blob
    /\ (forall k : nat,
           used <= Z.of_nat k ->
           FromString.parse_key_data (firstn k blob) = Ok (e, n))
    /\ (forall k : nat,
           Z.of_nat k < used ->
           exists err,
             FromString.parse_key_data (firstn k blob) = Raise err
             /\ is_truncation err = true).
Proof.
  intros H.
  destruct (parse_key_data_fields _ _ _ H)
    as (e_bytes & n_bytes & extra & _ & _ & _ & -> & -> & R1 & R2 & R3 & _).
  pose proof (read_ok_bounds _ _ _ _ R3) as B3.
  pose proof (len_nonneg e_bytes) as Le.
  pose proof (len_nonneg n_bytes) as Ln.
  exists (19 + len e_bytes + len n_bytes).
  assert (P : forall k : nat,
             FromString.parse_key_data (firstn k blob)
             = if Z.of_nat k <? 4 then Raise (CannotReadLength 0)
               else if Z.of_nat k <? 11 then Raise (CannotReadBytes 7 4)
               else if Z.of_nat k <? 15 then Raise (CannotReadLength 11)
               else if Z.of_nat k <? 15 + len e_bytes
                    then Raise (CannotReadBytes (len e_bytes) 15)
               else if Z.of_nat k <? 19 + len e_bytes
                    then Raise (CannotReadLength (15 + len e_bytes))
               else if Z.of_nat k <? 19 + len e_bytes + len n_bytes
                    then Raise (CannotReadBytes (len n_bytes)
                                  (19 + len e_bytes))
               else Ok (Py.int_from_bytes_big e_bytes,
                        Py.int_from_bytes_big n_bytes)).
  { intros k. unfold FromString.parse_key_data. cbv zeta.
    rewrite (read_firstn blob _ 0 11 k ltac:(lia) R1).
    change (0 + 4) with 4. change (len (bytes_of_string "ssh-rsa")) with 7.
    destruct (Z.of_nat k <? 4); [reflexivity|].
    destruct (Z.of_nat k <? 11); [reflexivity|].
    cbn [bind].
    replace (Py.decode_utf8 (bytes_of_string "ssh-rsa")) with (Ok ssh_rsa)
      by (vm_compute; reflexivity).
    cbn [bind]. rewrite str_eqb_refl. cbn [negb].
    rewrite (read_firstn blob _ 11 _ k ltac:(lia) R2).
    change (11 + 4) with 15.
    destruct (Z.of_nat k <? 15); [reflexivity|].
    destruct (Z.of_nat k <? 15 + len e_bytes); [reflexivity|].
    cbn [bind].
    rewrite (read_firstn blob _ (15 + len e_bytes) _ k ltac:(lia) R3).
    replace (15 + len e_bytes + 4) with (19 + len e_bytes) by lia.
    destruct (Z.of_nat k <? 19 + len e_bytes); [reflexivity|].
    destruct (Z.of_nat k <? 19 + len e_bytes + len n_bytes); reflexivity. }
  split; [lia|]. split; intros k Hk; rewrite P.
  - repeat match goal with
           | |- context [?a <? ?b] =>
               destruct (a <? b) eqn:?E;
               [apply Z.ltb_lt in E; lia | clear E]
           end.
    reflexivity.
  - repeat match goal with
           | |- context [?a <? ?b] =>
               destruct (a <? b) eqn:?E;
               [eexists; split; reflexivity | apply Z.ltb_ge in E]
           end.
    lia.
Qed.

Lemma truncated_blob_rejected_witness :
  exists used,
    19 <= used <= len scenario_blob
    /\ (forall k : nat,
           used <= Z.of_nat k ->
           FromString.parse_key_data (firstn k scenario_blob)
           = Ok (65537, 66051))
    /\ (forall k : nat,
           Z.of_nat k < used ->
           exists err,
             FromString.parse_key_data (firstn k scenario_blob) = Raise err
             /\ is_truncation err = true).
Proof.
  apply (truncated_blob_rejected scenario_blob 65537 66051).
  reflexivity.
Defined.

(** ** [format_key_info] *)

Lemma bit_length_bounds (n : Z) :
  0 <= n ->
  0 <= PyInt.bit_length n
  /\ n < 2 ^ PyInt.bit_length n
  /\ (0 < n -> 2 ^ (PyInt.bit_length n - 1) <= n).
Proof.
  intros Hn. unfold PyInt.bit_length.
  destruct (n =? 0) eqn:E.
  - apply Z.eqb_eq in E. subst. cbn. lia.
  - apply Z.eqb_neq in E. rewrite Z.abs_eq by lia.
    pose proof (Z.log2_nonneg n).
    destruct (Z.log2_spec n ltac:(lia)) as [Hlo Hhi].
    replace (Z.log2 n + 1 - 1) with (Z.log2 n) by lia.
    replace (Z.log2 n + 1) with (Z.succ (Z.log2 n)) by lia.
    repeat split; auto; lia.
Qed.

Lemma bit_length_le (n k : Z) :
  0 <= k -> 0 <= n < 2 ^ k -> PyInt.bit_length n <= k.
Proof.
  intros Hk [H0 H1]. unfold PyInt.bit_length.
  destruct (n =? 0) eqn:E; [lia|].
  apply Z.eqb_neq in E. rewrite Z.abs_eq by lia.
  apply Z.log2_lt_pow2 in H1; lia.
Qed.

(** X3.  The integers the blob stage returns are not negative, and the
    record [format_key_info] builds from them carries them unchanged with
    the bit length of the modulus: the modulus is below
    [2 ^ bit_length], at least [2 ^ (bit_length - 1)] when it is not
    zero, and the bit length is at most 8 times the octets the blob has
    after its 19 octets of tag and length prefixes. *)
Theorem decoded_key_info (blob : bytes) (e n : Z) :
  FromString.parse_key_data blob = Ok (e, n) ->
  let info := format_key_info e n in
  0 <= e /\ 0 <= n
  /\ exponent info = e /\ modulus info = n
  /\ 0 <= bit_length info <= 8 * (len blob - 19)
  /\ n < 2 ^ bit_length info
  /\ (0 < n -> 2 ^ (bit_length info - 1) <= n).
Proof.
  intros H.
  destruct (parse_key_data_fields _ _ _ H)
    as (e_bytes & n_bytes & extra & _ & _ & _ & -> & -> & _ & _ & R3 & _).
  pose proof (read_ok_bounds _ _ _ _ R3) as B3.
  pose proof (len_nonneg e_bytes) as Le.
  pose proof (len_nonneg n_bytes) as Ln.
  pose proof (int_from_bytes_big_range e_bytes) as Re.
  pose proof (int_from_bytes_big_range n_bytes) as Rn.
  cbv zeta. cbn [format_key_info exponent modulus bit_length].
  destruct (bit_length_bounds (Py.int_from_bytes_big n_bytes)) as (B0 & B1 & B2);
    [lia|].
  assert (Bk : PyInt.bit_length (Py.int_from_bytes_big n_bytes)
               <= 8 * len n_bytes).
  { apply bit_length_le; [lia|].
    rewrite Z.pow_mul_r by lia. exact Rn. }
  repeat split; auto; lia.
Qed.

Lemma decoded_key_info_witness :
  let info := format_key_info 65537 66051 in
  0 <= 65537 /\ 0 <= 66051
  /\ exponent info = 65537 /\ modulus info = 66051
  /\ 0 <= bit_length info <= 8 * (len scenario_blob - 19)
  /\ 66051 < 2 ^ bit_length info
  /\ (0 < 66051 -> 2 ^ (bit_length info - 1) <= 66051).
Proof.
  apply (decoded_key_info scenario_blob 65537 66051). reflexivity.
Defined.

Lemma hex_digit_value_digit (d : Z) :
  0 <= d < 16 -> hex_digit_value (PyInt.hex_digit d) = Some d.
Proof.
  intros Hd.
  assert (C : d = 0 \/ d = 1 \/ d = 2 \/ d = 3 \/ d = 4 \/ d = 5 \/ d = 6
              \/ d = 7 \/ d = 8 \/ d = 9 \/ d = 10 \/ d = 11 \/ d = 12
              \/ d = 13 \/ d = 14 \/ d = 15) by lia.
  repeat (destruct C as [-> | C]; [reflexivity|]). subst. reflexivity.
Qed.

Lemma hex_value_from_app (a b : str) (acc : Z) :
  hex_value_from acc (a ++ b)
  = match hex_value_from acc a with
    | Some v => hex_value_from v b
    | None => None
    end.
Proof.
  revert acc. induction a as [|c a IH]; intros acc; cbn [app hex_value_from].
  - reflexivity.
  - destruct (hex_digit_value c); [apply IH | reflexivity].
Qed.

Lemma hex_value_from_digits (count : nat) (m acc : Z) :
  0 <= m < 16 ^ Z.of_nat count ->
  hex_value_from acc (PyInt.hex_digits count m)
  = Some (acc * 16 ^ Z.of_nat count + m)
  /\ length (PyInt.hex_digits count m) = count.
Proof.
  revert m. induction count as [|k IH]; intros m Hm.
  - cbn [PyInt.hex_digits hex_value_from length].
    change (16 ^ Z.of_nat 0) with 1 in *.
    split; [|reflexivity]. f_equal. lia.
  - cbn [PyInt.hex_digits]. rewrite Nat2Z.inj_succ, Z.pow_succ_r in * by lia.
    destruct (IH (m / 16)) as [IHv IHl].
    { split; [apply Z.div_pos; lia | apply Z.div_lt_upper_bound; lia]. }
    rewrite hex_value_from_app, IHv. cbn [hex_value_from].
    pose proof (Z.mod_pos_bound m 16 ltac:(lia)).
    rewrite hex_digit_value_digit by lia.
    split.
    + f_equal. pose proof (Z.div_mod m 16 ltac:(lia)). lia.
    + rewrite length_app, IHl. cbn [length]. lia.
Qed.

(** The digits of [hex]: they write the absolute value, with no more
    digits than it needs. *)
Lemma hex_shape (x : Z) :
  exists digits,
    PyInt.hex x = (if x <? 0 then [45%N] else []) ++ [48%N; 120%N] ++ digits
    /\ hex_value digits = Some (Z.abs x)
    /\ 1 <= len digits
    /\ 16 ^ (len digits - 1) <= Z.max 1 (Z.abs x).
Proof.
  unfold PyInt.hex. cbv zeta.
  destruct (Z.abs x =? 0) eqn:E.
  - apply Z.eqb_eq in E. exists [48%N]. rewrite E.
    repeat split; cbn; lia.
  - apply Z.eqb_neq in E. pose proof (Z.abs_nonneg x) as Ha.
    set (m := Z.abs x) in *.
    destruct (bit_length_bounds m Ha) as (B0 & B1 & B2).
    specialize (B2 ltac:(lia)).
    assert (Bpos : 1 <= PyInt.bit_length m).
    { unfold PyInt.bit_length. destruct (m =? 0) eqn:E'.
      - apply Z.eqb_eq in E'. lia.
      - pose proof (Z.log2_nonneg (Z.abs m)). lia. }
    set (count := (PyInt.bit_length m + 3) / 4).
    assert (Hc : 4 * count <= PyInt.bit_length m + 3 < 4 * count + 4).
    { unfold count.
      pose proof (Z.div_mod (PyInt.bit_length m + 3) 4 ltac:(lia)).
      pose proof (Z.mod_pos_bound (PyInt.bit_length m + 3) 4 ltac:(lia)).
      lia. }
    assert (Hm : 0 <= m < 16 ^ Z.of_nat (Z.to_nat count)).
    { rewrite Z2Nat.id by lia. split; [lia|].
      change 16 with (2 ^ 4). rewrite <- Z.pow_mul_r by lia.
      eapply Z.lt_le_trans; [exact B1|].
      apply Z.pow_le_mono_r; lia. }
    destruct (hex_value_from_digits (Z.to_nat count) m 0 Hm) as [Hv Hl].
    exists (PyInt.hex_digits (Z.to_nat count) m).
    split; [reflexivity|]. split; [|split].
    + unfold hex_value. rewrite Hv. f_equal; lia.
    + unfold len. rewrite Hl. lia.
    + unfold len. rewrite Hl, Z2Nat.id by lia.
      rewrite Z.max_r by lia.
      change 16 with (2 ^ 4). rewrite <- Z.pow_mul_r by lia.
      eapply Z.le_trans; [|exact B2].
      apply Z.pow_le_mono_r; lia.
Qed.

(** X4.  The two hexadecimal fields of [format_key_info] are ["0x"],
    after a ["-"] for a negative number, followed by lower-case
    hexadecimal digits that write the absolute value of the exponent and
    of the modulus, at least one digit and no leading zero digit beyond
    it. *)
Theorem format_key_info_hex (e n : Z) :
  let info := format_key_info e n in
  exists e_digits n_digits,
    hex_exponent info
    = (if e <? 0 then [45%N] else []) ++ [48%N; 120%N] ++ e_digits
    /\ hex_value e_digits = Some (Z.abs e)
    /\ 1 <= len e_digits /\ 16 ^ (len e_digits - 1) <= Z.max 1 (Z.abs e)
    /\ hex_modulus info
       = (if n <? 0 then [45%N] else []) ++ [48%N; 120%N] ++ n_digits
    /\ hex_value n_digits = Some (Z.abs n)
    /\ 1 <= len n_digits /\ 16 ^ (len n_digits - 1) <= Z.max 1 (Z.abs n).
Proof.
  cbv zeta. cbn [format_key_info hex_exponent hex_modulus].
  destruct (hex_shape e) as (de & E1 & E2 & E3 & E4).
  destruct (hex_shape n) as (dn & N1 & N2 & N3 & N4).
  exists de, dn. repeat split; assumption.
Qed.

(** ** Leading zero octets *)

Lemma int_from_bytes_big_zeros (k : nat) (bs : bytes) :
  Py.int_from_bytes_big (repeat x00 k ++ bs) = Py.int_from_bytes_big bs.
Proof.
  induction k as [|k IH]; [reflexivity|].
  cbn [repeat app]. rewrite int_from_bytes_big_cons, IH.
  change (byte_val x00) with 0. lia.
Qed.

(** X5.  Zero octets at the head of the exponent field or of the modulus
    field do not change the pair the blob stage returns. *)
Theorem leading_zeros_ignored (ze zn : nat) (e_bytes n_bytes extra : bytes) :
  len (repeat x00 ze ++ e_bytes) < 2 ^ 32 ->
  len (repeat x00 zn ++ n_bytes) < 2 ^ 32 ->
  FromString.parse_key_data
    (tag_field
     ++ (Wire.to_bytes_big 4 (len (repeat x00 ze ++ e_bytes))
         ++ repeat x00 ze ++ e_bytes)
     ++ (Wire.to_bytes_big 4 (len (repeat x00 zn ++ n_bytes))
         ++ repeat x00 zn ++ n_bytes)
     ++ extra)
  = Ok (Py.int_from_bytes_big e_bytes, Py.int_from_bytes_big n_bytes).
Proof.
  intros He Hn.
  rewrite <- (int_from_bytes_big_zeros ze e_bytes).
  rewrite <- (int_from_bytes_big_zeros zn n_bytes).
  rewrite !app_assoc. apply parse_key_data_app. rewrite <- !app_assoc.
  pose proof (parse_written_fields _ _ He Hn) as P.
  rewrite <- !app_assoc in P. exact P.
Qed.

Lemma leading_zeros_ignored_witness :
  FromString.parse_key_data
    (tag_field
     ++ (Wire.to_bytes_big 4 3 ++ [x01; x00; x01])
     ++ (Wire.to_bytes_big 4 4 ++ [x00; x01; x02; x03])
     ++ [])
  = Ok (65537, 66051).
Proof.
  apply (leading_zeros_ignored 0 1 [x01; x00; x01] [x01; x02; x03] []);
    reflexivity.
Defined.

(** ** The layout of the key line *)

Lemma splits_as_split (s : str) (toks : list str) :
  splits_as s toks -> Py.split (Py.strip s) = toks.
Proof.
  intros H. apply (splits_as_unique s); [apply envelope_tokens | exact H].
Qed.

(** X6.  On a line made of optional whitespace, ["ssh-rsa"], whitespace,
    a token, and then nothing or whitespace followed by anything, the
    function is the blob stage on the base64 decoding of the token:
    spaces, tabs and line ends are all separators, and the comment is
    not read. *)
Theorem key_line_layout (ws0 ws1 token tail : str) :
  forallb Py.isspace ws0 = true ->
  ws1 <> [] -> forallb Py.isspace ws1 = true ->
  token <> [] -> forallb (fun c => negb (Py.isspace c)) token = true ->
  match tail with [] => True | c :: _ => Py.isspace c = true end ->
  FromString.extract_rsa_components_from_string
    (ws0 ++ ssh_rsa ++ ws1 ++ token ++ tail)
  = (key_data <- Py.b64decode token ;; FromString.parse_key_data key_data).
Proof.
  intros H0 N1 H1 Nt Ht Htail.
  apply (from_string_tokens _ token (Py.split tail)).
  apply splits_as_split.
  apply splits_token; auto.
  - discriminate.
  - destruct ws1 as [|c ws1]; [contradiction|].
    cbn [app]. cbn [forallb] in H1. now apply andb_prop in H1 as [H1 _].
  - apply splits_token; auto. apply (split_from_splits tail []). reflexivity.
Qed.

Lemma key_line_layout_witness :
  FromString.extract_rsa_components_from_string
    ([9%N] ++ ssh_rsa ++ [32%N; 32%N]
     ++ str_of_string "AAAAB3NzaC1yc2EAAAADAQABAAAAAwECAw=="
     ++ str_of_string " user@host")
  = Ok (65537, 66051).
Proof.
  etransitivity.
  - apply (key_line_layout [9%N] [32%N; 32%N]
             (str_of_string "AAAAB3NzaC1yc2EAAAADAQABAAAAAwECAw==")
             (str_of_string " user@host"));
      (reflexivity || discriminate).
  - vm_compute. reflexivity.
Defined.

(** X7.  Two lines whose first two tokens are the same give the same
    result, pair or exception: the tokens after the second are not
    read. *)
Theorem later_tokens_ignored (s s' key_type token : str) (rest rest' : list str) :
  Py.split (Py.strip s) = key_type :: token :: rest ->
  Py.split (Py.strip s') = key_type :: token :: rest' ->
  FromString.extract_rsa_components_from_string s
  = FromString.extract_rsa_components_from_string s'.
Proof.
  intros H H'. destruct (str_eqb key_type ssh_rsa) eqn:Q.
  - apply str_eqb_eq in Q. subst key_type.
    now rewrite (from_string_tokens _ _ _ H), (from_string_tokens _ _ _ H').
  - assert (Hne : key_type <> ssh_rsa)
      by (intros ->; now rewrite str_eqb_refl in Q).
    now rewrite (from_string_other_type _ _ _ _ H Hne),
                (from_string_other_type _ _ _ _ H' Hne).
Qed.

Lemma later_tokens_ignored_witness :
  FromString.extract_rsa_components_from_string
    (str_of_string "ssh-rsa AAAAAf8= first comment")
  = FromString.extract_rsa_components_from_string
      (str_of_string "ssh-rsa AAAAAf8=").
Proof.
  apply (later_tokens_ignored _ _ ssh_rsa (str_of_string "AAAAAf8=")
           [str_of_string "first"; str_of_string "comment"] []);
    vm_compute; reflexivity.
Defined.

(** ** Characters the base64 decoder skips *)

Lemma a2b_base64_loop_filter (bs : bytes) :
  forall (quad_pos : nat) (leftchar : N) (pads : nat) (bin_data : bytes),
    Py.a2b_base64_loop (filter (fun b => significant (byte_N b)) bs)
      quad_pos leftchar pads bin_data
    = Py.a2b_base64_loop bs quad_pos leftchar pads bin_data.
Proof.
  induction bs as [|b rest IH]; intros quad_pos leftchar pads bin_data;
    [reflexivity|].
  cbn [filter]. unfold significant at 1, is_pad, in_alphabet.
  destruct (byte_N b =? 61)%N eqn:Ep.
  - rewrite orb_true_r. cbn [Py.a2b_base64_loop]. cbv zeta. rewrite Ep.
    destruct (2 <=? quad_pos)%nat; [|apply IH].
    destruct (4 <=? quad_pos + S pads)%nat; [reflexivity | apply IH].
  - rewrite orb_false_r.
    destruct (Py.table_a2b_base64 (byte_N b)) as [v|] eqn:T.
    + cbn [Py.a2b_base64_loop]. cbv zeta. rewrite Ep, T.
      destruct quad_pos as [|[|[|q]]]; apply IH.
    + rewrite IH. cbn [Py.a2b_base64_loop]. cbv zeta. now rewrite Ep, T.
Qed.

Lemma encode_ascii_filter (token : str) :
  forallb is_ascii token = true ->
  exists bs,
    Py.encode_ascii token = Some bs
    /\ Py.encode_ascii (filter significant token)
       = Some (filter (fun b => significant (byte_N b)) bs).
Proof.
  induction token as [|c token IH]; intros H.
  - exists []. split; reflexivity.
  - cbn [forallb] in H. apply andb_prop in H as [Hc H].
    destruct (IH H) as (bs & E1 & E2).
    exists (byte_of_N c :: bs). unfold is_ascii in Hc.
    cbn [Py.encode_ascii]. rewrite Hc, E1. split; [reflexivity|].
    cbn [filter].
    replace (byte_N (byte_of_N c)) with c
      by (rewrite byte_N_of_N, N.mod_small; [reflexivity|];
          apply N.ltb_lt in Hc; lia).
    destruct (significant c); [|exact E2].
    cbn [Py.encode_ascii]. now rewrite Hc, E2.
Qed.

Lemma b64decode_significant (token : str) :
  forallb is_ascii token = true ->
  Py.b64decode (filter significant token) = Py.b64decode token.
Proof.
  intros H. destruct (encode_ascii_filter token H) as (bs & E1 & E2).
  unfold Py.b64decode, Py.a2b_base64. rewrite E1, E2.
  apply a2b_base64_loop_filter.
Qed.

(** X8.  In a second token of ASCII characters, the characters that are
    neither of the base64 alphabet nor ['='] have no effect: two
    ["ssh-rsa"] lines whose second tokens agree once these characters
    are removed give the same result. *)
Theorem insignificant_characters_skipped
    (s s' token token' : str) (rest rest' : list str) :
  Py.split (Py.strip s) = ssh_rsa :: token :: rest ->
  Py.split (Py.strip s') = ssh_rsa :: token' :: rest' ->
  forallb is_ascii token = true ->
  forallb is_ascii token' = true ->
  filter significant token = filter significant token' ->
  FromString.extract_rsa_components_from_string s
  = FromString.extract_rsa_components_from_string s'.
Proof.
  intros H H' A A' F.
  rewrite (from_string_tokens _ _ _ H), (from_string_tokens _ _ _ H').
  rewrite <- (b64decode_significant token A).
  rewrite <- (b64decode_significant token' A'). now rewrite F.
Qed.

Lemma insignificant_characters_skipped_witness :
  FromString.extract_rsa_components_from_string
    (str_of_string "ssh-rsa AAAA-B3Nza!C1yc2EAAAADAQABAAAAAwECAw==")
  = FromString.extract_rsa_components_from_string scenario_line.
Proof.
  apply (insignificant_characters_skipped _ _
           (str_of_string "AAAA-B3Nza!C1yc2EAAAADAQABAAAAAwECAw==")
           (str_of_string "AAAAB3NzaC1yc2EAAAADAQABAAAAAwECAw==") [] []);
    vm_compute; reflexivity.
Defined.

(** ** The exceptions of [extract_rsa_components_manual] *)




(** ** The type tag inside the blob, again *)

Lemma type_tag_mismatch_reported_witness :
  FromString.parse_key_data dsa_blob
  = Raise (InvalidKeyTypeInData (str_of_string "dsa")).
Proof.
  apply (type_tag_mismatch_reported dsa_blob [x64; x73; x61] 7).
  - reflexivity.
  - reflexivity.
  - discriminate.
Defined.

(** X11.  When [extract_rsa_components_from_string] returns a pair, both
    tags were checked: the first token of the line is ["ssh-rsa"], the
    second token decodes from base64 to a blob that starts with the 11
    octets of the ["ssh-rsa"] field, and the pair is what the blob stage
    returns on that blob, two integers that are not negative. *)
Theorem from_string_success (s : str) (e n : Z) :
  FromString.extract_rsa_components_from_string s = Ok (e, n) ->
  exists token rest key_data,
    Py.split (Py.strip s) = ssh_rsa :: token :: rest
    /\ Py.b64decode token = Ok key_data
    /\ firstn 11 key_data = tag_field
    /\ FromString.parse_key_data key_data = Ok (e, n)
    /\ 0 <= e /\ 0 <= n.
Proof.
  intros H.
  destruct (tokens_cases (Py.split (Py.strip s)))
    as [Hf | (key_type & token & rest & Hp)].
  { rewrite from_string_few_tokens in H by assumption. discriminate. }
  destruct (str_eqb key_type ssh_rsa) eqn:Q.
  2:{ rewrite (from_string_other_type _ _ _ _ Hp) in H; [discriminate|].
      intros ->. now rewrite str_eqb_refl in Q. }
  apply str_eqb_eq in Q. subst key_type.
  rewrite (from_string_tokens _ _ _ Hp) in H.
  destruct (Py.b64decode token) as [key_data|] eqn:B; [|discriminate].
  cbn [bind] in H.
  exists token, rest, key_data.
  destruct (parse_key_data_fields _ _ _ H)
    as (e_bytes & n_bytes & extra & Hb & _ & _ & He & Hn & _).
  pose proof (int_from_bytes_big_range e_bytes).
  pose proof (int_from_bytes_big_range n_bytes).
  repeat split; auto; try lia.
  rewrite Hb. rewrite firstn_app.
  change (length tag_field) with 11%nat. rewrite Nat.sub_diag.
  cbn [firstn]. rewrite app_nil_r. reflexivity.
Qed.

Lemma from_string_success_witness :
  exists token rest key_data,
    Py.split (Py.strip scenario_line) = ssh_rsa :: token :: rest
    /\ Py.b64decode token = Ok key_data
    /\ firstn 11 key_data = tag_field
    /\ FromString.parse_key_data key_data = Ok (65537, 66051)
    /\ 0 <= 65537 /\ 0 <= 66051.
Proof.
  apply (from_string_success scenario_line 65537 66051).
  vm_compute. reflexivity.
Defined.

(** ** What the base64 decoder computes *)

Lemma all_below_spec (k : nat) (P : N -> bool) (n : N) :
  all_below k P = true -> (n < N.of_nat k)%N -> P n = true.
Proof.
  unfold all_below. intros H Hn. rewrite forallb_forall in H. apply H.
  apply in_map_iff. exists (N.to_nat n). split; [lia|].
  apply in_seq. lia.
Qed.

Lemma octet_steps (l v : N) :
  (l < 64)%N -> (v < 64)%N -> octet_steps_ok l v = true.
Proof.
  intros Hl Hv.
  apply (all_below_spec 64 (fun v => octet_steps_ok l v)); [|exact Hv].
  apply (all_below_spec 64
           (fun l => all_below 64 (fun v => octet_steps_ok l v)));
    [vm_compute; reflexivity | exact Hl].
Qed.

Lemma table_a2b_base64_bound (c v : N) :
  Py.table_a2b_base64 c = Some v -> (v < 64)%N.
Proof.
  unfold Py.table_a2b_base64.
  repeat match goal with
         | |- context [if ?b then _ else _] => destruct b eqn:?
         end;
    intros H; try discriminate; injection H as <-;
    repeat match goal with
           | E : (_ && _) = true |- _ => apply andb_prop in E as [? ?]
           | E : (_ <=? _)%N = true |- _ => apply N.leb_le in E
           end;
    lia.
Qed.

Lemma octet_steps_facts (l v : N) :
  (l < 64)%N -> (v < 64)%N ->
  byte_val (byte_of_N (N.lor (N.shiftl l 2) (N.shiftr v 4)))
  = Z.of_N l * 4 + Z.of_N v / 16
  /\ Z.of_N (N.land v 15) = Z.of_N v mod 16
  /\ ((l < 16)%N ->
      byte_val (byte_of_N (N.lor (N.shiftl l 4) (N.shiftr v 2)))
      = Z.of_N l * 16 + Z.of_N v / 4)
  /\ Z.of_N (N.land v 3) = Z.of_N v mod 4
  /\ ((l < 4)%N ->
      byte_val (byte_of_N (N.lor (N.shiftl l 6) v))
      = Z.of_N l * 64 + Z.of_N v).
Proof.
  intros Hl Hv. pose proof (octet_steps l v Hl Hv) as H.
  unfold octet_steps_ok in H.
  apply andb_prop in H as [H H5]. apply andb_prop in H as [H H4].
  apply andb_prop in H as [H H3]. apply andb_prop in H as [H1 H2].
  apply N.eqb_eq in H1, H2, H4.
  assert (H3' : (l < 16)%N ->
                byte_N (byte_of_N (N.lor (N.shiftl l 4) (N.shiftr v 2)))
                = (l * 16 + v / 4)%N).
  { intros Hl'. apply orb_prop in H3 as [H3 | H3].
    - apply negb_true_iff, N.ltb_ge in H3. lia.
    - now apply N.eqb_eq in H3. }
  assert (H5' : (l < 4)%N ->
                byte_N (byte_of_N (N.lor (N.shiftl l 6) v)) = (l * 64 + v)%N).
  { intros Hl'. apply orb_prop in H5 as [H5 | H5].
    - apply negb_true_iff, N.ltb_ge in H5. lia.
    - now apply N.eqb_eq in H5. }
  unfold byte_val. unfold byte_N in H1, H3', H5'.
  split; [|split; [|split; [|split]]].
  - rewrite H1, N2Z.inj_add, N2Z.inj_mul, N2Z.inj_div. reflexivity.
  - now rewrite H2, N2Z.inj_mod.
  - intros Hl'. rewrite (H3' Hl'), N2Z.inj_add, N2Z.inj_mul, N2Z.inj_div.
    reflexivity.
  - now rewrite H4, N2Z.inj_mod.
  - intros Hl'. rewrite (H5' Hl'), N2Z.inj_add, N2Z.inj_mul. reflexivity.
Qed.

Lemma int_from_bytes_big_snoc (bs : bytes) (b : byte) :
  Py.int_from_bytes_big (bs ++ [b]) = Py.int_from_bytes_big bs * 256 + byte_val b.
Proof.
  rewrite int_from_bytes_big_app. change (len [b]) with 1.
  unfold Py.int_from_bytes_big at 2. cbn [fold_left]. lia.
Qed.

Lemma len_snoc {A : Type} (l : list A) (x : A) : len (l ++ [x]) = len l + 1.
Proof. rewrite len_app. reflexivity. Qed.

(** One alphabet character keeps the state in step with the value. *)
Lemma a2b_state_step (quad_pos : nat) (l : N) (out : bytes) (V T : Z) (v : N) :
  a2b_state_ok quad_pos l out V T ->
  (v < 64)%N ->
  match quad_pos with
  | O => a2b_state_ok 1 v out (V * 64 + Z.of_N v) (T + 1)
  | 1%nat =>
      a2b_state_ok 2 (N.land v 15)
        (out ++ [byte_of_N (N.lor (N.shiftl l 2) (N.shiftr v 4))])
        (V * 64 + Z.of_N v) (T + 1)
  | 2%nat =>
      a2b_state_ok 3 (N.land v 3)
        (out ++ [byte_of_N (N.lor (N.shiftl l 4) (N.shiftr v 2))])
        (V * 64 + Z.of_N v) (T + 1)
  | _ =>
      a2b_state_ok 0 0
        (out ++ [byte_of_N (N.lor (N.shiftl l 6) v)])
        (V * 64 + Z.of_N v) (T + 1)
  end.
Proof.
  intros (HT & Hq & HV & Hl & Hb) Hv.
  assert (Hq4 : (quad_pos < 4)%nat)
    by (pose proof (Z.mod_pos_bound T 4 ltac:(lia)); lia).
  assert (Hl64 : (l < 64)%N).
  { destruct quad_pos as [|[|[|q]]]; cbn [pending_bits] in Hl; lia. }
  destruct (octet_steps_facts l v Hl64 Hv) as (F1 & F2 & F3 & F4 & F5).
  unfold a2b_state_ok.
  destruct quad_pos as [|[|[|[|q]]]]; try lia; cbn [pending_bits] in *;
    rewrite ?int_from_bytes_big_snoc, ?len_snoc.
  - repeat split; try (Z.div_mod_to_equations; lia).
  - rewrite F1, F2. repeat split; try (Z.div_mod_to_equations; lia).
  - rewrite (F3 ltac:(lia)), F4.
    repeat split; try (Z.div_mod_to_equations; lia).
  - rewrite (F5 ltac:(lia)).
    repeat split; try (Z.div_mod_to_equations; lia).
Qed.

(** The decoder over a run of characters without ['=']. *)
Lemma a2b_base64_loop_run (bs rest : bytes) :
  pad_free bs = true ->
  forall (quad_pos : nat) (l : N) (out : bytes) (V T : Z),
    a2b_state_ok quad_pos l out V T ->
    exists quad_pos' l' out',
      Py.a2b_base64_loop (bs ++ rest) quad_pos l 0 out
      = Py.a2b_base64_loop rest quad_pos' l' 0 out'
      /\ a2b_state_ok quad_pos' l' out'
           (sextets_value_from V (map byte_N bs))
           (T + Z.of_nat (data_octets bs)).
Proof.
  induction bs as [|b bs IH]; intros Hp quad_pos l out V T Hs.
  - exists quad_pos, l, out. split; [reflexivity|].
    cbn [map sextets_value_from]. unfold data_octets. cbn [filter length].
    now replace (T + Z.of_nat 0) with T by lia.
  - unfold pad_free in Hp. cbn [forallb] in Hp.
    apply andb_prop in Hp as [Hb Hp]. fold (pad_free bs) in Hp.
    apply negb_true_iff in Hb. unfold is_pad in Hb.
    cbn [app Py.a2b_base64_loop map sextets_value_from]. cbv zeta.
    rewrite Hb. unfold data_octets. cbn [filter].
    destruct (Py.table_a2b_base64 (byte_N b)) as [v|] eqn:Tb;
      [replace (in_alphabet (byte_N b)) with true
        by (unfold in_alphabet; now rewrite Tb)
      |replace (in_alphabet (byte_N b)) with false
        by (unfold in_alphabet; now rewrite Tb)].
    + cbn [length]. fold (data_octets bs).
      pose proof (a2b_state_step _ _ _ _ _ v Hs
                    (table_a2b_base64_bound _ _ Tb)) as Hn.
      replace (T + Z.of_nat (S (data_octets bs)))
        with (T + 1 + Z.of_nat (data_octets bs)) by lia.
      destruct quad_pos as [|[|[|q]]]; exact (IH Hp _ _ _ _ _ Hn).
    + fold (data_octets bs). exact (IH Hp _ _ _ _ _ Hs).
Qed.

Lemma a2b_state_start : a2b_state_ok 0 0 [] 0 0.
Proof. unfold a2b_state_ok. cbn. repeat split; lia. Qed.

(** The output of a state, from the value and the count it stands for. *)
Lemma a2b_state_output (quad_pos : nat) (l : N) (out : bytes) (V T : Z) :
  a2b_state_ok quad_pos l out V T ->
  out = Wire.to_bytes_big (Z.to_nat (6 * T / 8)) (V / 2 ^ (6 * T mod 8))
  /\ pending_bits quad_pos = 6 * T mod 8.
Proof.
  intros (HT & Hq & HV & Hl & Hb).
  pose proof (len_nonneg out) as Ho.
  assert (Hq4 : (quad_pos < 4)%nat)
    by (pose proof (Z.mod_pos_bound T 4 ltac:(lia)); lia).
  assert (Hpend : 0 <= pending_bits quad_pos < 8)
    by (destruct quad_pos as [|[|[|q]]]; cbn; lia).
  assert (Hm : 6 * T mod 8 = pending_bits quad_pos).
  { symmetry. apply (Z.mod_unique_pos _ _ (len out)); lia. }
  assert (Hd : 6 * T / 8 = len out).
  { symmetry. apply (Z.div_unique_pos _ _ (len out) (pending_bits quad_pos)); lia. }
  split; [|now symmetry].
  rewrite Hm, Hd. unfold len. rewrite Nat2Z.id.
  assert (Hv : V / 2 ^ pending_bits quad_pos = Py.int_from_bytes_big out).
  { symmetry.
    apply (Z.div_unique_pos _ _ (Py.int_from_bytes_big out) (Z.of_N l));
      [lia|]. lia. }
  rewrite Hv. symmetry. apply to_from_bytes_big.
Qed.

Lemma encode_ascii_app (a b : str) :
  forallb is_ascii (a ++ b) = true ->
  exists ba bb,
    Py.encode_ascii (a ++ b) = Some (ba ++ bb)
    /\ Py.encode_ascii a = Some ba
    /\ Py.encode_ascii b = Some bb
    /\ map byte_N ba = a.
Proof.
  induction a as [|c a IH]; intros H.
  - cbn [app] in *. destruct (encode_ascii_filter b H) as (bb & E & _).
    exists [], bb. repeat split; auto.
  - cbn [app forallb] in H. apply andb_prop in H as [Hc H].
    destruct (IH H) as (ba & bb & E1 & E2 & E3 & E4).
    exists (byte_of_N c :: ba), bb. unfold is_ascii in Hc.
    cbn [app Py.encode_ascii map]. rewrite Hc, E1, E2.
    repeat split; auto.
    rewrite byte_N_of_N, N.mod_small, E4; [reflexivity|].
    apply N.ltb_lt in Hc. lia.
Qed.

(** X12.  On an ["ssh-rsa"] line whose second token is ASCII and is made
    of a part without ['='] holding [count] alphabet characters, followed
    by nothing when [count] is a multiple of 4, by ['='] when one
    character is missing for that, or by ["=="] when two are missing
    (and then by anything), the blob handed to the blob stage is the
    octets of the number the alphabet characters write in base 64: its
    [6 * count / 8] high octets, the [6 * count mod 8] low bits
    dropped. *)
Theorem base64_token_value (s token body tail : str) (rest : list str) :
  Py.split (Py.strip s) = ssh_rsa :: token :: rest ->
  token = body ++ tail ->
  forallb is_ascii token = true ->
  existsb is_pad body = false ->
  let count := Z.of_nat (data_characters body) in
  (count mod 4 = 0 /\ tail = [])
  \/ (count mod 4 = 3 /\ exists t, tail = 61%N :: t)
  \/ (count mod 4 = 2 /\ exists t, tail = 61%N :: 61%N :: t) ->
  let blob :=
    Wire.to_bytes_big (Z.to_nat (6 * count / 8))
      (sextets_value body / 2 ^ (6 * count mod 8)) in
  Py.b64decode token = Ok blob
  /\ FromString.extract_rsa_components_from_string s
     = FromString.parse_key_data blob.
Proof.
  intros Hp -> Ha Hnp count Hc blob.
  assert (B : Py.b64decode (body ++ tail) = Ok blob).
  { destruct (encode_ascii_app body tail Ha) as (ba & bb & E & Ea & Eb & Hm).
    destruct (encode_ascii_octets _ _ Ea) as [Hcount Hfree].
    rewrite Hnp in Hfree. cbn [negb] in Hfree.
    unfold Py.b64decode, Py.a2b_base64. rewrite E.
    destruct (a2b_base64_loop_run ba bb Hfree 0 0 [] 0 0 a2b_state_start)
      as (q & l & out & Hrun & Hs).
    rewrite Hrun. rewrite Hm, Hcount in Hs. cbn [Z.add] in Hs.
    fold (sextets_value body) in Hs. fold count in Hs.
    destruct (a2b_state_output _ _ _ _ _ Hs) as [Hout Hpend].
    fold blob in Hout. subst out.
    destruct Hs as (_ & Hq & _).
    destruct Hc as [[Hc ->] | [[Hc [t ->]] | [Hc [t ->]]]].
    - injection Eb as <-. cbn [Py.a2b_base64_loop].
      destruct q as [|q]; [reflexivity|lia].
    - cbn [Py.encode_ascii] in Eb.
      destruct (Py.encode_ascii t) as [bt|]; [|discriminate].
      injection Eb as <-.
      assert (q = 3%nat) by lia. subst q. reflexivity.
    - cbn [Py.encode_ascii] in Eb.
      destruct (Py.encode_ascii t) as [bt|]; [|discriminate].
      injection Eb as <-.
      assert (q = 2%nat) by lia. subst q. reflexivity. }
  split; [exact B|].
  rewrite (from_string_tokens _ _ _ Hp), B. reflexivity.
Qed.

Lemma base64_token_value_witness :
  FromString.extract_rsa_components_from_string scenario_line
  = FromString.parse_key_data
      (Wire.to_bytes_big 25
         (sextets_value (str_of_string "AAAAB3NzaC1yc2EAAAADAQABAAAAAwECAw")
          / 2 ^ 4)).
Proof.
  apply (base64_token_value scenario_line
           (str_of_string "AAAAB3NzaC1yc2EAAAADAQABAAAAAwECAw==")
           (str_of_string "AAAAB3NzaC1yc2EAAAADAQABAAAAAwECAw")
           (str_of_string "==") []).
  - vm_compute. reflexivity.
  - reflexivity.
  - vm_compute. reflexivity.
  - vm_compute. reflexivity.
  - right. right. split; [reflexivity|]. exists []. reflexivity.
Defined.
